(** * Dicentis OSC bridge: a shallow embedding of [backup.py]

    The development embeds the bridge engine of [DicentisOscBridge]
    (seat directory construction, seat lookup, the three inbound OSC
    command handlers, the session exchanges and one iteration of the
    polling loop) and proves properties of it.

    Conventions of the embedding.
    - A Python value as produced by [json.loads], by an OSC argument or by
      the code itself is a [pyval].  Dictionaries are association lists in
      insertion order, which is the iteration order of a Python [dict].
    - A Python [str] is a [string]; the character predicates ([isspace],
      [isdigit]) and [upper] are the ones Python defines on the ASCII
      repertoire.
    - A text frame received from the server is represented by what
      [json.loads] makes of it ([payload]); a frame sent to the server is
      the value handed to [json.dumps].
    - Methods of the bridge are computations in a state, exception and
      output monad [M]: the state holds the attributes of [self] together
      with the session connection's traffic and the outbound OSC traffic,
      the output is the sequence of log records and prints. *)

From Stdlib Require Import ZArith List String Ascii Bool Lia.
From Stdlib Require Import QArith_base.
Import ListNotations.

Local Open Scope string_scope.
Local Open Scope Z_scope.
Local Open Scope list_scope.

(** ** Python strings *)

Module PyStrings.

(** [str.isspace] on one ASCII character: TAB, LF, VT, FF, CR, the four
    separators FS, GS, RS, US, and the space. *)
Definition isspace (c : ascii) : bool :=
  let n := nat_of_ascii c in
  ((9 <=? n)%nat && (n <=? 13)%nat) || ((28 <=? n)%nat && (n <=? 32)%nat).

(** [str.isdigit] on one ASCII character. *)
Definition isdigit (c : ascii) : bool :=
  let n := nat_of_ascii c in (48 <=? n)%nat && (n <=? 57)%nat.

Definition islower (c : ascii) : bool :=
  let n := nat_of_ascii c in (97 <=? n)%nat && (n <=? 122)%nat.

Definition upper_char (c : ascii) : ascii :=
  if islower c then ascii_of_nat (nat_of_ascii c - 32) else c.

(** [s.upper()] *)
Fixpoint upper (s : string) : string :=
  match s with
  | EmptyString => EmptyString
  | String c s' => String (upper_char c) (upper s')
  end.

Fixpoint lstrip (s : string) : string :=
  match s with
  | EmptyString => EmptyString
  | String c s' => if isspace c then lstrip s' else s
  end.

Fixpoint rstrip (s : string) : string :=
  match s with
  | EmptyString => EmptyString
  | String c s' =>
      let r := rstrip s' in
      if (r =? EmptyString)%string && isspace c then EmptyString else String c r
  end.

(** [s.strip()] *)
Definition strip (s : string) : string := rstrip (lstrip s).

(** [a in b] for two strings: [a] occurs in [b] as a substring. *)
Fixpoint str_in (a b : string) : bool :=
  String.prefix a b ||
  match b with
  | EmptyString => false
  | String _ b' => str_in a b'
  end.

(** The characters of a string, as iteration over a [str] yields them. *)
Fixpoint chars (s : string) : list string :=
  match s with
  | EmptyString => []
  | String c s' => String c EmptyString :: chars s'
  end.

(** [str.isdigit(s)]: non-empty and made of digits only. *)
Fixpoint all_digits (s : string) : bool :=
  match s with
  | EmptyString => true
  | String c s' => isdigit c && all_digits s'
  end.

Definition str_isdigit (s : string) : bool :=
  negb (s =? EmptyString)%string && all_digits s.

(** [''.join(l)] *)
Definition join (l : list string) : string := String.concat EmptyString l.

Definition digit_of (c : ascii) : Z := Z.of_nat (nat_of_ascii c) - 48.

Fixpoint int_loop (acc : Z) (s : string) : option Z :=
  match s with
  | EmptyString => Some acc
  | String c s' =>
      if isdigit c then int_loop (acc * 10 + digit_of c) s' else None
  end.

(** [int(s)] on the strings the bridge passes to it, which are made of
    decimal digits: [None] stands for [ValueError], raised on the empty
    string.  Signs, underscores and surrounding blanks, which [int] also
    accepts, never reach it from [filter(str.isdigit, ...)] and are
    rejected here.  Integers are unbounded; the interpreter's configurable
    cap on the length of a numeral is left out. *)
Definition py_int (s : string) : option Z :=
  match s with
  | EmptyString => None
  | _ => int_loop 0 s
  end.

End PyStrings.

(** ** Python values *)

#[warnings="-register-all"]
Inductive pyval : Type :=
| PyNone
| PyBool (b : bool)
| PyInt (z : Z)
| PyFloat (q : Q)
| PyStr (s : string)
| PyList (l : list pyval)
| PyDict (d : list (pyval * pyval)).

(** A Python [dict]: bindings in insertion order. *)
Definition dict : Type := list (pyval * pyval).

Inductive exn : Type :=
| AttributeError
| TypeError
| ValueError
| JSONDecodeError
| KeyError
| RuntimeError (msg : pyval)
| ConnectionClosed
| OSError.

Inductive result (A : Type) : Type :=
| Ok (a : A)
| Raise (e : exn).
Arguments Ok {A} a.
Arguments Raise {A} e.

Module Py.

(** Truth value of an object, as [not x], [if x] and [x or y] test it. *)
Definition truthy (v : pyval) : bool :=
  match v with
  | PyNone => false
  | PyBool b => b
  | PyInt z => negb (z =? 0)
  | PyFloat q => negb (Qeq_bool q (inject_Z 0))
  | PyStr s => negb (s =? EmptyString)%string
  | PyList l => match l with [] => false | _ :: _ => true end
  | PyDict d => match d with [] => false | _ :: _ => true end
  end.

(** [x or y] *)
Definition por (x y : pyval) : pyval := if truthy x then x else y.

Definition hashable (v : pyval) : bool :=
  match v with
  | PyList _ | PyDict _ => false
  | _ => true
  end.

Definition numeric (v : pyval) : option Q :=
  match v with
  | PyBool b => Some (inject_Z (if b then 1 else 0))
  | PyInt z => Some (inject_Z z)
  | PyFloat q => Some q
  | _ => None
  end.

(** Equality of two hashable objects used as dictionary keys: numbers
    compare by value across [bool], [int] and [float]. *)
Definition key_eqb (a b : pyval) : bool :=
  match a, b with
  | PyNone, PyNone => true
  | PyStr s, PyStr t => (s =? t)%string
  | _, _ =>
      match numeric a, numeric b with
      | Some p, Some q => Qeq_bool p q
      | _, _ => false
      end
  end.

Fixpoint dict_get (d : dict) (k : pyval) : option pyval :=
  match d with
  | [] => None
  | (k', v) :: d' => if key_eqb k' k then Some v else dict_get d' k
  end.

(** [d[k] = v] for a hashable [k]: an existing binding keeps its place
    and its key, a new one goes last. *)
Fixpoint dict_set (d : dict) (k v : pyval) : dict :=
  match d with
  | [] => [(k, v)]
  | (k', v') :: d' =>
      if key_eqb k' k then (k', v) :: d' else (k', v') :: dict_set d' k v
  end.

(** [x == s] where [s] is a [str]. *)
Definition eq_str (x : pyval) (s : string) : bool :=
  match x with
  | PyStr t => (t =? s)%string
  | _ => false
  end.

(** [x.get(key, default)]: only a [dict] has the attribute. *)
Definition get (x : pyval) (key : string) (default : pyval) : result pyval :=
  match x with
  | PyDict d =>
      Ok (match dict_get d (PyStr key) with Some v => v | None => default end)
  | _ => Raise AttributeError
  end.

(** [iter(x)], run to the end. *)
Definition iter (x : pyval) : result (list pyval) :=
  match x with
  | PyList l => Ok l
  | PyStr s => Ok (map PyStr (PyStrings.chars s))
  | PyDict d => Ok (map fst d)
  | _ => Raise TypeError
  end.

(** [x.strip()]: only a [str] has the attribute among the values here. *)
Definition strip (x : pyval) : result string :=
  match x with
  | PyStr s => Ok (PyStrings.strip s)
  | _ => Raise AttributeError
  end.

End Py.

(** ** The bridge's state and its effects *)

(** A text frame received on the session connection, by the outcome of
    [json.loads] on it. *)
Inductive payload : Type :=
| Unparsable (text : string)
| Parsed (v : pyval).

Inductive level : Type := DEBUG | INFO | WARNING | ERROR | CRITICAL.

(** A value interpolated into a log message. *)
Inductive fmt : Type :=
| V (v : pyval)
| X (e : exn)
| F (p : payload).

(** A log record or a print: the text of the (f-)string as written in the
    source, with the values it interpolates. *)
Inductive event : Type :=
| Log (lv : level) (template : string) (args : list fmt)
| Stdout (template : string) (args : list fmt).

Inductive osc_address : Type :=
| MicOnValue                        (* "/custom-variable/mic_on/value" *)
| SeatValue (seat_number : pyval).  (* f"/custom-variable/seat{seat_number}/value" *)

(** The attributes of [self] the engine uses, followed by the outside
    world: whether the server accepts a connection, the frames it will
    deliver (in order), the frames sent to it (oldest first) and the OSC
    messages published (oldest first). *)
Record state : Type := mkState {
  server_ip : string;
  username : pyval;
  password : pyval;
  websocket : option string;
  seat_info : dict;
  seat_details : dict;
  last_discussion_data : pyval;
  server_up : bool;
  inbox : list payload;
  sent : list pyval;
  osc_out : list (osc_address * pyval)
}.

Definition set_websocket (w : option string) (s : state) : state :=
  mkState (server_ip s) (username s) (password s) w (seat_info s)
    (seat_details s) (last_discussion_data s) (server_up s) (inbox s)
    (sent s) (osc_out s).

Definition set_seat_info (d : dict) (s : state) : state :=
  mkState (server_ip s) (username s) (password s) (websocket s) d
    (seat_details s) (last_discussion_data s) (server_up s) (inbox s)
    (sent s) (osc_out s).

Definition set_seat_details (d : dict) (s : state) : state :=
  mkState (server_ip s) (username s) (password s) (websocket s) (seat_info s)
    d (last_discussion_data s) (server_up s) (inbox s) (sent s) (osc_out s).

Definition set_last_discussion_data (v : pyval) (s : state) : state :=
  mkState (server_ip s) (username s) (password s) (websocket s) (seat_info s)
    (seat_details s) v (server_up s) (inbox s) (sent s) (osc_out s).

Definition set_inbox (i : list payload) (s : state) : state :=
  mkState (server_ip s) (username s) (password s) (websocket s) (seat_info s)
    (seat_details s) (last_discussion_data s) (server_up s) i (sent s)
    (osc_out s).

Definition set_sent (l : list pyval) (s : state) : state :=
  mkState (server_ip s) (username s) (password s) (websocket s) (seat_info s)
    (seat_details s) (last_discussion_data s) (server_up s) (inbox s) l
    (osc_out s).

Definition set_osc_out (l : list (osc_address * pyval)) (s : state) : state :=
  mkState (server_ip s) (username s) (password s) (websocket s) (seat_info s)
    (seat_details s) (last_discussion_data s) (server_up s) (inbox s)
    (sent s) l.

(** Computations: from a state to a result or an exception, the state
    reached, and the records logged on the way. *)
Definition M (A : Type) : Type := state -> result A * state * list event.

Definition ret {A} (a : A) : M A := fun s => (Ok a, s, []).

Definition raise {A} (e : exn) : M A := fun s => (Raise e, s, []).

Definition bind {A B} (m : M A) (f : A -> M B) : M B :=
  fun s =>
    match m s with
    | (Ok a, s1, ev1) =>
        match f a s1 with
        | (r, s2, ev2) => (r, s2, ev1 ++ ev2)
        end
    | (Raise e, s1, ev1) => (Raise e, s1, ev1)
    end.

Notation "x <- m ;; k" := (bind m (fun x => k))
  (at level 61, m at next level, right associativity).
Notation "m ;; k" := (bind m (fun _ => k))
  (at level 61, right associativity).

(** [try: m  except <the exceptions h handles>: h e]; a handler re-raises
    what its [except] clause does not name. *)
Definition try_except {A} (m : M A) (h : exn -> M A) : M A :=
  fun s =>
    match m s with
    | (Ok a, s1, ev1) => (Ok a, s1, ev1)
    | (Raise e, s1, ev1) =>
        match h e s1 with
        | (r, s2, ev2) => (r, s2, ev1 ++ ev2)
        end
    end.

Definition lift {A} (r : result A) : M A := fun s => (r, s, []).

Definition get_state : M state := fun s => (Ok s, s, []).

Definition modify (f : state -> state) : M unit := fun s => (Ok tt, f s, []).

Definition logger (lv : level) (template : string) (args : list fmt) : M unit :=
  fun s => (Ok tt, s, [Log lv template args]).

Definition print (template : string) (args : list fmt) : M unit :=
  fun s => (Ok tt, s, [Stdout template args]).

(** The result, the state reached and the output of a run. *)
Definition outcome {A} (r : result A * state * list event) : result A := fst (fst r).
Definition final {A} (r : result A * state * list event) : state := snd (fst r).
Definition output {A} (r : result A * state * list event) : list event := snd r.

(** [await self.websocket.send(json.dumps(v))]: [None] has no [send]. *)
Definition ws_send (v : pyval) : M unit :=
  fun s =>
    match websocket s with
    | None => (Raise AttributeError, s, [])
    | Some _ => (Ok tt, set_sent (sent s ++ [v]) s, [])
    end.

(** [await self.websocket.recv()]: the next frame of the server; when the
    server has nothing more to deliver the connection is closed. *)
Definition ws_recv : M payload :=
  fun s =>
    match websocket s with
    | None => (Raise AttributeError, s, [])
    | Some _ =>
        match inbox s with
        | [] => (Raise ConnectionClosed, s, [])
        | p :: rest => (Ok p, set_inbox rest s, [])
        end
    end.

(** [json.loads(response)] *)
Definition json_loads (p : payload) : M pyval :=
  match p with
  | Unparsable _ => raise JSONDecodeError
  | Parsed v => ret v
  end.

(** [self.osc_client.send_message(address, value)] *)
Definition osc_send_message (address : osc_address) (value : pyval) : M unit :=
  modify (fun s => set_osc_out (osc_out s ++ [(address, value)]) s).

(** ** Seat lookup and cached microphone state *)

(** The loop of [get_current_mic_state] over the discussion list. *)
Fixpoint find_mic_state (screen_line : string) (l : list pyval) : M pyval :=
  match l with
  | [] =>
      logger DEBUG "No mic state found for {screen_line}, assuming off"
        [V (PyStr screen_line)] ;;
      ret (PyStr "off")
  | discussion :: rest =>
      logger DEBUG "Checking discussion: {discussion}" [V discussion] ;;
      sl <- lift (Py.get discussion "screenLine" PyNone) ;;
      if Py.eq_str sl screen_line then
        mic_state <- lift (Py.get discussion "microphoneState" (PyStr "off")) ;;
        logger DEBUG "Found mic state for {screen_line}: {mic_state}"
          [V (PyStr screen_line); V mic_state] ;;
        ret mic_state
      else find_mic_state screen_line rest
  end.

Definition get_current_mic_state (screen_line : string) : M pyval :=
  try_except
    (s <- get_state ;;
     if negb (Py.truthy (last_discussion_data s)) then
       logger DEBUG "No recent discussion data available" [] ;;
       ret (PyStr "off")
     else
       parameters <- lift (Py.get (last_discussion_data s) "parameters" (PyDict [])) ;;
       discussion_list <- lift (Py.get parameters "discussionList" (PyList [])) ;;
       items <- lift (Py.iter discussion_list) ;;
       find_mic_state screen_line items)
    (fun e =>
       logger ERROR "Error getting microphone state for {screen_line}: {e}"
         [V (PyStr screen_line); X e] ;;
       ret (PyStr "off")).

(** [enhanced_seat_data = seat_data.copy()] followed by
    [enhanced_seat_data['participantId'] =
       seat_data.get('participantId') or seat_data.get('seatName')]. *)
Definition enhanced_seat_data (seat_data : pyval) : M pyval :=
  match seat_data with
  | PyDict d =>
      participant <- lift (Py.get seat_data "participantId" PyNone) ;;
      v <- (if Py.truthy participant then ret participant
            else lift (Py.get seat_data "seatName" PyNone)) ;;
      ret (PyDict (Py.dict_set d (PyStr "participantId") v))
  | _ => raise AttributeError
  end.

Arguments enhanced_seat_data : simpl never.

(** First loop of [get_seat_info_by_screen_line] over [self.seat_info.items()]. *)
Fixpoint exact_match (normalized_screen_line : string) (items : dict)
  : M (option pyval) :=
  match items with
  | [] => ret None
  | (seat_number, seat_data) :: rest =>
      sl <- lift (Py.get seat_data "screenLine" (PyStr EmptyString)) ;;
      normalized_seat_screen_line <- lift (Py.strip sl) ;;
      logger DEBUG "Checking seat {seat_number}: '{normalized_seat_screen_line}'"
        [V seat_number; V (PyStr normalized_seat_screen_line)] ;;
      if (PyStrings.upper normalized_seat_screen_line
          =? PyStrings.upper normalized_screen_line)%string
      then
        e <- enhanced_seat_data seat_data ;;
        logger DEBUG "Found matching seat: {enhanced_seat_data}" [V e] ;;
        ret (Some e)
      else exact_match normalized_screen_line rest
  end.

(** Second loop of [get_seat_info_by_screen_line]: substring either way. *)
Fixpoint partial_match (normalized_screen_line : string) (items : dict)
  : M (option pyval) :=
  match items with
  | [] => ret None
  | (seat_number, seat_data) :: rest =>
      sl <- lift (Py.get seat_data "screenLine" (PyStr EmptyString)) ;;
      normalized_seat_screen_line <- lift (Py.strip sl) ;;
      if PyStrings.str_in (PyStrings.upper normalized_seat_screen_line)
                          (PyStrings.upper normalized_screen_line)
         || PyStrings.str_in (PyStrings.upper normalized_screen_line)
                             (PyStrings.upper normalized_seat_screen_line)
      then
        e <- enhanced_seat_data seat_data ;;
        logger DEBUG "Found partial match: {enhanced_seat_data}" [V e] ;;
        ret (Some e)
      else partial_match normalized_screen_line rest
  end.

(** Returns the enhanced seat data, or [None]. *)
Definition get_seat_info_by_screen_line (screen_line : pyval) : M pyval :=
  normalized_screen_line <- lift (Py.strip screen_line) ;;
  s <- get_state ;;
  logger DEBUG "Searching for seat with normalized screen line: '{normalized_screen_line}'"
    [V (PyStr normalized_screen_line)] ;;
  logger DEBUG "Available seats: {self.seat_info}" [V (PyDict (seat_info s))] ;;
  exact <- exact_match normalized_screen_line (seat_info s) ;;
  match exact with
  | Some e => ret e
  | None =>
      logger ERROR "No exact match found for screen line: '{normalized_screen_line}'"
        [V (PyStr normalized_screen_line)] ;;
      logger DEBUG "Attempting partial match..." [] ;;
      partial <- partial_match normalized_screen_line (seat_info s) ;;
      match partial with
      | Some e => ret e
      | None =>
          logger ERROR "Full seat_info: {self.seat_info}" [V (PyDict (seat_info s))] ;;
          ret PyNone
      end
  end.

Arguments get_seat_info_by_screen_line : simpl never.
Arguments get_current_mic_state : simpl never.

(** ** Microphone requests *)

Definition mic_request (operation : string) (seat_id : pyval) : pyval :=
  PyDict [(PyStr "operation", PyStr operation);
          (PyStr "parameters", PyDict [(PyStr "seatid", seat_id)])].

Definition activate_microphone (seat_info : pyval) : M unit :=
  try_except
    (s <- get_state ;;
     match websocket s with
     | None =>
         logger WARNING "WebSocket not connected. Simulating mic activation." [] ;;
         print "WebSocket not connected. Simulating mic activation." []
     | Some _ =>
         participant <- lift (Py.get seat_info "participantId" PyNone) ;;
         seat_id <- (if Py.truthy participant then ret participant
                     else lift (Py.get seat_info "seatName" PyNone)) ;;
         if negb (Py.truthy seat_id) then
           logger ERROR "Cannot activate microphone: No seat ID found for {seat_info}"
             [V seat_info]
         else
           ws_send (mic_request "ActivateMicrophone" seat_id) ;;
           response <- ws_recv ;;
           failed <-
             try_except
               (response_data <- json_loads response ;;
                operation <- lift (Py.get response_data "operation" PyNone) ;;
                if Py.eq_str operation "error" then
                  parameters <- lift (Py.get response_data "parameters" (PyDict [])) ;;
                  error_message <-
                    lift (Py.get parameters "message"
                            (PyStr "Unknown microphone activation error")) ;;
                  logger CRITICAL "Microphone activation failed for seat {seat_id}: {error_message}"
                    [V seat_id; V error_message] ;;
                  print "Microphone activation failed. Error: {error_message}"
                    [V error_message] ;;
                  ret true
                else ret false)
               (fun e => match e with JSONDecodeError => ret false | _ => raise e end) ;;
           if failed : bool then ret tt
           else
             line <- lift (Py.get seat_info "screenLine" (PyStr "Unknown")) ;;
             logger INFO "Microphone activation response for {seat_info.get('screenLine', 'Unknown')}: {response}"
               [V line; F response] ;;
             print "Microphone activation response for {seat_info.get('screenLine', 'Unknown')}: {response}"
               [V line; F response]
     end)
    (fun e =>
       logger ERROR "Error activating microphone: {e}" [X e] ;;
       print "Error activating microphone: {e}" [X e]).

Definition deactivate_microphone (seat_info : pyval) : M unit :=
  try_except
    (s <- get_state ;;
     match websocket s with
     | None =>
         logger WARNING "WebSocket not connected. Simulating mic deactivation." [] ;;
         print "WebSocket not connected. Simulating mic deactivation." []
     | Some _ =>
         participant <- lift (Py.get seat_info "participantId" PyNone) ;;
         seat_id <- (if Py.truthy participant then ret participant
                     else lift (Py.get seat_info "seatName" PyNone)) ;;
         if negb (Py.truthy seat_id) then
           logger ERROR "Cannot deactivate microphone: No seat ID found for {seat_info}"
             [V seat_info]
         else
           ws_send (mic_request "DeactivateMicrophone" seat_id) ;;
           response <- ws_recv ;;
           failed <-
             try_except
               (response_data <- json_loads response ;;
                operation <- lift (Py.get response_data "operation" PyNone) ;;
                if Py.eq_str operation "error" then
                  parameters <- lift (Py.get response_data "parameters" (PyDict [])) ;;
                  error_message <-
                    lift (Py.get parameters "message"
                            (PyStr "Unknown microphone deactivation error")) ;;
                  logger CRITICAL "Microphone deactivation failed for seat {seat_id}: {error_message}"
                    [V seat_id; V error_message] ;;
                  print "Microphone deactivation failed. Error: {error_message}"
                    [V error_message] ;;
                  ret true
                else ret false)
               (fun e => match e with JSONDecodeError => ret false | _ => raise e end) ;;
           if failed : bool then ret tt
           else
             line <- lift (Py.get seat_info "screenLine" (PyStr "Unknown")) ;;
             logger INFO "Microphone deactivation response for {seat_info.get('screenLine', 'Unknown')}: {response}"
               [V line; F response] ;;
             print "Microphone deactivation response for {seat_info.get('screenLine', 'Unknown')}: {response}"
               [V line; F response]
     end)
    (fun e =>
       logger ERROR "Error deactivating microphone: {e}" [X e] ;;
       print "Error deactivating microphone: {e}" [X e]).

Arguments activate_microphone : simpl never.
Arguments deactivate_microphone : simpl never.

(** ** Inbound OSC command handlers *)

(** [future.result()] of the coroutine run on the scheduler's loop, seen
    from the submitting thread: the call returns once the coroutine has
    finished; an exception is logged and swallowed. *)
Definition run_async_task (coro : M unit) : M unit :=
  try_except coro
    (fun e =>
       logger ERROR "Error running async task: {e}" [X e] ;;
       print "Error running async task: {e}" [X e]).

(** [self.seat_info], read. *)
Definition self_seat_info : M dict := fun s => (Ok (seat_info s), s, []).

(** [args[0] if args else None] *)
Definition first_arg (args : list pyval) : pyval :=
  match args with
  | [] => PyNone
  | a :: _ => a
  end.

Definition handle_mic_activate_wrapper (address : string) (args : list pyval) : M unit :=
  logger INFO "RECEIVED MIC ACTIVATE - Address: {address}, Args: {args}"
    [V (PyStr address); V (PyList args)] ;;
  print "RECEIVED MIC ACTIVATE - Address: {address}, Args: {args}"
    [V (PyStr address); V (PyList args)] ;;
  try_except
    (let screen_line := first_arg args in
     if negb (Py.truthy screen_line) then
       logger ERROR "No screen line provided for mic activation" []
     else
       seat_info <- get_seat_info_by_screen_line screen_line ;;
       if Py.truthy seat_info then
         run_async_task (activate_microphone seat_info)
       else
         logger ERROR "Cannot activate mic: No seat found for {screen_line}"
           [V screen_line])
    (fun e =>
       logger ERROR "Error in mic activate handler: {e}" [X e] ;;
       print "Error in mic activate handler: {e}" [X e]).

Definition handle_mic_deactivate_wrapper (address : string) (args : list pyval) : M unit :=
  logger INFO "RECEIVED MIC DEACTIVATE - Address: {address}, Args: {args}"
    [V (PyStr address); V (PyList args)] ;;
  print "RECEIVED MIC DEACTIVATE - Address: {address}, Args: {args}"
    [V (PyStr address); V (PyList args)] ;;
  try_except
    (let screen_line := first_arg args in
     if negb (Py.truthy screen_line) then
       logger ERROR "No screen line provided for mic deactivation" []
     else
       seat_info <- get_seat_info_by_screen_line screen_line ;;
       if Py.truthy seat_info then
         run_async_task (deactivate_microphone seat_info)
       else
         logger ERROR "Cannot deactivate mic: No seat found for {screen_line}"
           [V screen_line])
    (fun e =>
       logger ERROR "Error in mic deactivate handler: {e}" [X e] ;;
       print "Error in mic deactivate handler: {e}" [X e]).

(** The toggle handler.  A [screen_line] that came through
    [get_seat_info_by_screen_line] is a [str] (anything else has raised
    [AttributeError] on [strip] there), so [get_current_mic_state] is
    applied to a string. *)
Definition handle_mic_control (address : string) (args : list pyval) : M unit :=
  try_except
    (logger DEBUG "Mic Control - Received OSC message: Address={address}, Args={args}"
       [V (PyStr address); V (PyList args)] ;;
     let screen_line := first_arg args in
     if negb (Py.truthy screen_line) then
       logger ERROR "No screen line provided for microphone control" []
     else
       logger DEBUG "Attempting to toggle microphone for screen line: {screen_line}"
         [V screen_line] ;;
       seat_info <- get_seat_info_by_screen_line screen_line ;;
       if negb (Py.truthy seat_info) then
         logger ERROR "No seat found for screen line: {screen_line}" [V screen_line] ;;
         directory <- self_seat_info ;;
         logger DEBUG "Current seat details: {self.seat_info}" [V (PyDict directory)]
       else
         logger DEBUG "Found seat info: {seat_info}" [V seat_info] ;;
         current_mic_state <-
           match screen_line with
           | PyStr line => get_current_mic_state line
           | _ => raise AttributeError
           end ;;
         logger DEBUG "Current microphone state for {screen_line}: {current_mic_state}"
           [V screen_line; V current_mic_state] ;;
         if Py.eq_str current_mic_state "on" then
           logger DEBUG "Deactivating microphone for {screen_line}" [V screen_line] ;;
           run_async_task (deactivate_microphone seat_info)
         else
           logger DEBUG "Activating microphone for {screen_line}" [V screen_line] ;;
           run_async_task (activate_microphone seat_info))
    (fun e =>
       logger ERROR "Detailed error toggling microphone: {e}" [X e]).

(** ** Session exchanges and the seat directory *)

Definition login_request (user pass : pyval) : pyval :=
  PyDict [(PyStr "operation", PyStr "login");
          (PyStr "parameters", PyDict [(PyStr "user", user); (PyStr "password", pass)])].

Definition login : M unit :=
  s <- get_state ;;
  ws_send (login_request (username s) (password s)) ;;
  response <- ws_recv ;;
  logger INFO "Login Response: {response}" [F response] ;;
  try_except
    (login_data <- json_loads response ;;
     operation <- lift (Py.get login_data "operation" PyNone) ;;
     if Py.eq_str operation "error" then
       parameters <- lift (Py.get login_data "parameters" (PyDict [])) ;;
       error_message <- lift (Py.get parameters "message" (PyStr "Unknown login error")) ;;
       logger CRITICAL "Login failed: {error_message}" [V error_message] ;;
       logger CRITICAL "Username used: {self.username}" [V (username s)] ;;
       print "Login failed. Check username and permissions. Error: {error_message}"
         [V error_message] ;;
       raise (RuntimeError error_message)
     else ret tt)
    (fun e =>
       match e with
       | JSONDecodeError =>
           logger ERROR "Failed to parse login response" [] ;;
           raise e
       | _ => raise e
       end).

Definition request (operation : string) : pyval :=
  PyDict [(PyStr "operation", PyStr operation); (PyStr "parameters", PyDict [])].

Definition get_seats_info : M pyval :=
  ws_send (request "getseats") ;;
  response <- ws_recv ;;
  logger INFO "Raw Seats Response:" [] ;;
  logger INFO "{response}" [F response] ;;
  try_except
    (seats_data <- json_loads response ;;
     operation <- lift (Py.get seats_data "operation" PyNone) ;;
     (if Py.eq_str operation "error" then
        parameters <- lift (Py.get seats_data "parameters" (PyDict [])) ;;
        error_message <-
          lift (Py.get parameters "message" (PyStr "Unknown seats retrieval error")) ;;
        logger CRITICAL "Seats retrieval failed: {error_message}" [V error_message] ;;
        print "Failed to retrieve seats. Error: {error_message}" [V error_message]
      else ret tt) ;;
     logger INFO "Parsed Seats Response:" [] ;;
     logger INFO "{json.dumps(seats_data, indent=2)}" [V seats_data] ;;
     ret seats_data)
    (fun e =>
       match e with
       | JSONDecodeError =>
           logger ERROR "Error decoding seats response: {e}" [X e] ;;
           ret (PyDict [(PyStr "parameters", PyDict [(PyStr "seats", PyList [])])])
       | _ => raise e
       end).

(** [filter(str.isdigit, seat_name)]: [str.isdigit] applies to [str]
    items only. *)
Fixpoint filter_isdigit (items : list pyval) : result (list string) :=
  match items with
  | [] => Ok []
  | PyStr t :: rest =>
      match filter_isdigit rest with
      | Ok kept => Ok (if PyStrings.str_isdigit t then t :: kept else kept)
      | Raise e => Raise e
      end
  | _ :: _ => Raise TypeError
  end.

(** [int(''.join(filter(str.isdigit, seat_name)))] *)
Definition seat_number_of (seat_name : pyval) : result Z :=
  match Py.iter seat_name with
  | Raise e => Raise e
  | Ok items =>
      match filter_isdigit items with
      | Raise e => Raise e
      | Ok kept =>
          match PyStrings.py_int (PyStrings.join kept) with
          | Some z => Ok z
          | None => Raise ValueError
          end
      end
  end.

Arguments seat_number_of : simpl never.

(** The body of the loop of [process_seats_info], for one raw record. *)
Definition process_seat (seat : pyval) : M unit :=
  seat_name <- lift (Py.get seat "seatName" (PyStr EmptyString)) ;;
  screen_line <- lift (Py.get seat "screenLine" (PyStr EmptyString)) ;;
  skip <- (if negb (Py.truthy seat_name) then ret true
           else
             hide <- lift (Py.get seat "hideSeat" (PyBool false)) ;;
             ret (Py.truthy hide)) ;;
  if skip : bool then ret tt
  else
    number <-
      try_except
        (n <- lift (seat_number_of seat_name) ;; ret (Some n))
        (fun e =>
           match e with
           | ValueError | JSONDecodeError => ret None
           | _ => raise e
           end) ;;
    match number with
    | None => ret tt
    | Some seat_number =>
        seat_id <- lift (Py.get seat "seatId" (PyStr EmptyString)) ;;
        participant <- lift (Py.get seat "seatedParticipantId" (PyStr EmptyString)) ;;
        let details :=
          PyDict [(PyStr "seatName", seat_name);
                  (PyStr "screenLine", screen_line);
                  (PyStr "seatId", seat_id);
                  (PyStr "participantId", participant)] in
        modify (fun s =>
                  set_seat_info
                    (Py.dict_set (seat_info s) (PyInt seat_number)
                       (PyDict [(PyStr "seatName", seat_name);
                                (PyStr "screenLine", screen_line)])) s) ;;
        if Py.hashable screen_line then
          modify (fun s =>
                    set_seat_details (Py.dict_set (seat_details s) screen_line details) s)
        else raise TypeError
    end.

Fixpoint for_each {A} (body : A -> M unit) (l : list A) : M unit :=
  match l with
  | [] => ret tt
  | x :: rest => body x ;; for_each body rest
  end.

Definition process_seats_info (seats_data : pyval) : M unit :=
  parameters <- lift (Py.get seats_data "parameters" (PyDict [])) ;;
  seats <- lift (Py.get parameters "seats" (PyList [])) ;;
  modify (set_seat_info []) ;;
  modify (set_seat_details []) ;;
  items <- lift (Py.iter seats) ;;
  for_each process_seat items ;;
  s <- get_state ;;
  logger INFO "Retrieved seat info for {len(self.seat_info)} seats"
    [V (PyInt (Z.of_nat (List.length (seat_info s))))] ;;
  logger DEBUG "Seat info details: {self.seat_info}" [V (PyDict (seat_info s))] ;;
  logger DEBUG "Seat details: {self.seat_details}" [V (PyDict (seat_details s))].

Definition retrieve_seat_info : M unit :=
  seats_data <- get_seats_info ;;
  process_seats_info seats_data.

(** [websockets.connect(uri, ...)]: the connection object, or a transport
    error when the server does not accept the connection. *)
Definition websockets_connect (uri : string) : M string :=
  fun s => if server_up s then (Ok uri, s, []) else (Raise OSError, s, []).

Definition connect : M unit :=
  s <- get_state ;;
  let uri := ("wss://" ++ server_ip s ++ ":31416/Dicentis/API")%string in
  w <- websockets_connect uri ;;
  modify (set_websocket (Some w)) ;;
  login ;;
  retrieve_seat_info.

(** ** The polling loop *)

Definition get_discussion_list : M pyval :=
  ws_send (request "GetDiscussionList") ;;
  response <- ws_recv ;;
  logger INFO "Raw Discussion List Response:" [] ;;
  logger INFO "{response}" [F response] ;;
  try_except
    (discussion_data <- json_loads response ;;
     operation <- lift (Py.get discussion_data "operation" PyNone) ;;
     (if Py.eq_str operation "error" then
        parameters <- lift (Py.get discussion_data "parameters" (PyDict [])) ;;
        error_message <-
          lift (Py.get parameters "message" (PyStr "Unknown discussion list error")) ;;
        logger CRITICAL "Discussion list retrieval failed: {error_message}"
          [V error_message] ;;
        print "Failed to retrieve discussion list. Error: {error_message}"
          [V error_message]
      else ret tt) ;;
     logger INFO "Parsed Discussion List Response:" [] ;;
     logger INFO "{json.dumps(discussion_data, indent=2)}" [V discussion_data] ;;
     ret discussion_data)
    (fun e =>
       match e with
       | JSONDecodeError =>
           logger ERROR "Error decoding discussion list response: {e}" [X e] ;;
           ret (PyDict [(PyStr "parameters", PyDict [(PyStr "discussionList", PyList [])])])
       | _ => raise e
       end).

(** The loop of [main_loop] that fills [active_mic_screen_lines]. *)
Fixpoint collect_active (items active_mic_screen_lines : list pyval)
  : M (list pyval) :=
  match items with
  | [] => ret active_mic_screen_lines
  | discussion :: rest =>
      mic_state <- lift (Py.get discussion "microphoneState" (PyStr "off")) ;;
      screen_line <- lift (Py.get discussion "screenLine" (PyStr "Unknown")) ;;
      logger DEBUG "Discussion item: mic_state={mic_state}, screen_line={screen_line}"
        [V mic_state; V screen_line] ;;
      collect_active rest
        (if Py.eq_str mic_state "on"
         then active_mic_screen_lines ++ [screen_line]
         else active_mic_screen_lines)
  end.

(** One iteration of [while True] in [main_loop], up to the sleep. *)
Definition poll_tick : M unit :=
  discussion_data <- get_discussion_list ;;
  modify (set_last_discussion_data discussion_data) ;;
  logger DEBUG "Discussion list data: {discussion_data}" [V discussion_data] ;;
  parameters <- lift (Py.get discussion_data "parameters" (PyDict [])) ;;
  discussion_list <- lift (Py.get parameters "discussionList" (PyList [])) ;;
  items <- lift (Py.iter discussion_list) ;;
  active_mic_screen_lines <- collect_active items [] ;;
  logger DEBUG "Active mic screen lines: {active_mic_screen_lines}"
    [V (PyList active_mic_screen_lines)] ;;
  match active_mic_screen_lines with
  | [] => ret tt
  | value :: _ =>
      logger INFO "Sending OSC Message - Address: {osc_address}, Value: {value}"
        [V (PyStr "/custom-variable/mic_on/value"); V value] ;;
      osc_send_message MicOnValue value
  end.

(** The loop of [main_loop] that announces the seats once connected;
    [seat_data['screenLine']] raises [KeyError] on a missing key. *)
Definition announce_seat (binding : pyval * pyval) : M unit :=
  let (seat_number, seat_data) := binding in
  value <- lift (match seat_data with
                 | PyDict d =>
                     match Py.dict_get d (PyStr "screenLine") with
                     | Some v => Ok v
                     | None => Raise KeyError
                     end
                 | _ => Raise TypeError
                 end) ;;
  logger DEBUG "Seat {seat_number} data: {seat_data}" [V seat_number; V seat_data] ;;
  logger INFO "Sending OSC Message - Address: {osc_address}, Value: {value}"
    [V seat_number; V value] ;;
  osc_send_message (SeatValue seat_number) value.

(** The first [ticks] iterations of [while True]. *)
Fixpoint poll_loop (ticks : nat) : M unit :=
  match ticks with
  | O => ret tt
  | S n => poll_tick ;; poll_loop n
  end.

(** [main_loop], observed for [ticks] iterations of its loop: an exception
    ends it and is logged.  Starting and stopping the OSC server threads
    and closing the connection are outside the embedding. *)
Definition main_loop (ticks : nat) : M unit :=
  try_except
    (connect ;;
     directory <- self_seat_info ;;
     logger DEBUG "Total seats found: {len(self.seat_info)}"
       [V (PyInt (Z.of_nat (List.length directory)))] ;;
     for_each announce_seat directory ;;
     poll_loop ticks)
    (fun e => logger ERROR "Error in main loop: {e}" [X e]).



(** ** Notions of the specification and fixtures *)

(** The bridge as [__init__] leaves it: no connection, the statically
    configured seats, no cached discussion data; and a world in which
    nothing has been sent or published yet. *)
Definition init (ip : string) (user pass : pyval) (seats : dict)
    (up : bool) (frames : list payload) : state :=
  mkState ip user pass None seats [] PyNone up frames [] [].

(** Symbolic evaluation of a computation: unfold the monad's operations
    and reduce. *)
Ltac run :=
  cbv [bind ret lift logger print try_except raise get_state modify
       ws_send ws_recv json_loads osc_send_message self_seat_info];
  cbn.

Definition is_dict (v : pyval) : bool :=
  match v with
  | PyDict _ => true
  | _ => false
  end.

(** The snapshot in the words of the specification: the entries whose
    microphone state is on, and the screen lines of those, in snapshot
    order. *)
Definition microphone_on (entry : pyval) : bool :=
  match Py.get entry "microphoneState" (PyStr "off") with
  | Ok v => Py.eq_str v "on"
  | Raise _ => false
  end.

Definition screen_line_of (entry : pyval) : pyval :=
  match Py.get entry "screenLine" (PyStr "Unknown") with
  | Ok v => v
  | Raise _ => PyNone
  end.

Definition active_screen_lines (snapshot : list pyval) : list pyval :=
  map screen_line_of (filter microphone_on snapshot).


(** The state a completed tick leaves behind. *)
Definition after_tick (d : pyval) (rest : list payload)
    (active : list pyval) (s : state) : state :=
  let s1 := set_last_discussion_data d
              (set_inbox rest
                 (set_sent (sent s ++ [request "GetDiscussionList"]) s)) in
  match active with
  | [] => s1
  | first :: _ => set_osc_out (osc_out s1 ++ [(MicOnValue, first)]) s1
  end.

Definition entry (screen_line microphone_state : string) : pyval :=
  PyDict [(PyStr "screenLine", PyStr screen_line);
          (PyStr "microphoneState", PyStr microphone_state)].

Definition discussion_response (snapshot : list pyval) : pyval :=
  PyDict [(PyStr "operation", PyStr "GetDiscussionList");
          (PyStr "parameters", PyDict [(PyStr "discussionList", PyList snapshot)])].

(** A connected bridge with empty caches, and the frames the server will
    deliver next. *)
Definition connected (frames : list payload) : state :=
  mkState "10.0.0.5" (PyStr "admin") (PyStr "secret")
    (Some "wss://10.0.0.5:31416/Dicentis/API") [] [] PyNone true frames [] [].





(** The entry [process_seats_info] stores in [self.seat_info]. *)
Definition seat_entry (seat_name screen_line : pyval) : pyval :=
  PyDict [(PyStr "seatName", seat_name); (PyStr "screenLine", screen_line)].

(** Equality of screen lines up to surrounding whitespace and letter
    case. *)
Definition normalize (line : string) : string :=
  PyStrings.upper (PyStrings.strip line).

(** The value a successful lookup returns for the directory entry [d]:
    the entry with [participantId] set to its own [participantId] if that
    is a true value, to its [seatName] otherwise. *)
Definition enhance (d : dict) : pyval :=
  PyDict (Py.dict_set d (PyStr "participantId")
            (Py.por (match Py.dict_get d (PyStr "participantId") with
                     | Some v => v
                     | None => PyNone
                     end)
                    (match Py.dict_get d (PyStr "seatName") with
                     | Some v => v
                     | None => PyNone
                     end))).


(** A raw seat record of a [getseats] response, and the response. *)
Definition seat_record (seat_name screen_line participant : string) : pyval :=
  PyDict [(PyStr "seatName", PyStr seat_name);
          (PyStr "screenLine", PyStr screen_line);
          (PyStr "seatId", PyStr "id");
          (PyStr "seatedParticipantId", PyStr participant)].

Definition seats_response (seats : list pyval) : pyval :=
  PyDict [(PyStr "operation", PyStr "getseats");
          (PyStr "parameters", PyDict [(PyStr "seats", PyList seats)])].

(** The bridge after [process_seats_info] on a list of raw records. *)
Definition with_seats (seats : list pyval) (frames : list payload) : state :=
  final (process_seats_info (seats_response seats) (connected frames)).

(** The message an error response carries in its parameters [p], for the
    seat retrieval. *)
Definition error_message_of (p : dict) : pyval :=
  match Py.dict_get p (PyStr "message") with
  | Some v => v
  | None => PyStr "Unknown seats retrieval error"
  end.

(** A response to [login] that is not an error, and error responses. *)
Definition login_ok : pyval :=
  PyDict [(PyStr "operation", PyStr "login"); (PyStr "parameters", PyDict [])].

Definition error_response (parameters : pyval) : pyval :=
  PyDict [(PyStr "operation", PyStr "error"); (PyStr "parameters", parameters)].

(** The cached microphone state in the words of the specification: the
    state of the first entry of the snapshot with that screen line, off
    when there is none. *)
Fixpoint mic_state_in (snapshot : list pyval) (line : string) : pyval :=
  match snapshot with
  | [] => PyStr "off"
  | entry :: rest =>
      match Py.get entry "screenLine" PyNone with
      | Ok v =>
          if Py.eq_str v line then
            match Py.get entry "microphoneState" (PyStr "off") with
            | Ok state => state
            | Raise _ => PyStr "off"
            end
          else mic_state_in rest line
      | Raise _ => PyStr "off"
      end
  end.

(** The bridge with the seat of the specification's scenarios ("Seat 3",
    screen line "MALTA", seated participant "P42") in its directory, a
    cached snapshot in which MALTA has the given microphone state, and the
    server's next frames. *)
Definition malta (microphone_state : string) (frames : list payload) : state :=
  set_last_discussion_data
    (discussion_response [entry "MALTA" microphone_state])
    (with_seats [seat_record "Seat 3" "MALTA" "P42"] frames).

(** An acknowledgement of a microphone request. *)
Definition ack : pyval :=
  PyDict [(PyStr "operation", PyStr "ack"); (PyStr "parameters", PyDict [])].

(** The shape of the directory [process_seats_info] builds: every entry
    holds a seat name, which is a true value, and a screen line, and
    nothing else. *)
Definition directory_shape (directory : dict) : Prop :=
  Forall (fun binding =>
            exists name line,
              snd binding = seat_entry name line /\ Py.truthy name = true)
         directory.

(** What a lookup returns for the entry of seat [name], [line]. *)
Definition resolved_seat (name line : pyval) : pyval :=
  PyDict [(PyStr "seatName", name);
          (PyStr "screenLine", line);
          (PyStr "participantId", name)].

(** Case analysis on whatever a computation is stuck on: a variable, a
    dictionary access, a comparison with a string or a truth test. *)
Ltac crunch :=
  repeat (cbn;
          match goal with
          | |- context [match ?x with _ => _ end] => is_var x; destruct x
          | |- context [match Py.get ?a ?b ?c with _ => _ end] =>
              destruct (Py.get a b c)
          | |- context [if Py.eq_str ?a ?b then _ else _] =>
              destruct (Py.eq_str a b)
          | |- context [if Py.truthy ?a then _ else _] =>
              destruct (Py.truthy a) eqn:?
          | |- context [if negb (Py.truthy ?a) then _ else _] =>
              destruct (Py.truthy a) eqn:?
          end).

(** The state after one request has been sent and the server's next
    frame, if any, has been taken. *)
Definition after_exchange (frame : pyval) (s : state) : state :=
  set_inbox (tl (inbox s)) (set_sent (sent s ++ [frame]) s).

(** The effect a command may have: none, or one microphone request sent
    on the open connection and the server's next frame taken. *)
Definition command_effect (s s' : state) : Prop :=
  s' = s
  \/ exists operation seat_id,
       (operation = "ActivateMicrophone" \/ operation = "DeactivateMicrophone")
       /\ Py.truthy seat_id = true
       /\ websocket s <> None
       /\ s' = after_exchange (mic_request operation seat_id) s.



(** A directory keyed by pairwise distinct, non-negative seat numbers. *)
Definition numbered (directory : dict) : Prop :=
  exists numbers : list Z,
    map fst directory = map PyInt numbers
    /\ NoDup numbers
    /\ Forall (fun n => 0 <= n) numbers.

(** The address [connect] opens the session at. *)
Definition uri_of (s : state) : string :=
  ("wss://" ++ server_ip s ++ ":31416/Dicentis/API")%string.

(** The state once [connect] has opened the connection, sent the login
    request and taken the server's answer to it. *)
Definition after_login (s : state) : state :=
  after_exchange (login_request (username s) (password s))
    (set_websocket (Some (uri_of s)) s).


(** The server's frames left after [k] exchanges. *)
Fixpoint frames_after (k : nat) (frames : list payload) : list payload :=
  match k with
  | O => frames
  | S k' => frames_after k' (tl frames)
  end.

(** The seat identifier a microphone request is made with: the
    participant identity of the seat data if it is a true value, its seat
    name otherwise. *)
Definition seat_id_of (d : dict) : pyval :=
  Py.por (match Py.dict_get d (PyStr "participantId") with
          | Some v => v
          | None => PyNone
          end)
         (match Py.dict_get d (PyStr "seatName") with
          | Some v => v
          | None => PyNone
          end).





(** * Properties *)

(** ** Commands before the session is connected *)

(** C10.  While [self.websocket] is unset, [activate_microphone] and
    [deactivate_microphone] return normally, leave the whole state as it
    was (so nothing is sent on the session connection) and only log and
    print the simulation notice. *)
Theorem microphone_commands_dropped_when_not_connected :
  forall (s : state) (seat : pyval),
    websocket s = None ->
    activate_microphone seat s =
      (Ok tt, s,
       [Log WARNING "WebSocket not connected. Simulating mic activation." [];
        Stdout "WebSocket not connected. Simulating mic activation." []])
    /\
    deactivate_microphone seat s =
      (Ok tt, s,
       [Log WARNING "WebSocket not connected. Simulating mic deactivation." [];
        Stdout "WebSocket not connected. Simulating mic deactivation." []]).
Proof.
  intros s seat Hws.
  unfold activate_microphone, deactivate_microphone, try_except, bind, get_state.
  rewrite Hws. split; reflexivity.
Qed.

Lemma microphone_commands_dropped_when_not_connected_witness :
  let s := init "10.0.0.5" (PyStr "admin") (PyStr "secret") [] true [] in
  let seat := PyDict [(PyStr "seatName", PyStr "Seat 3")] in
  websocket s = None /\
  sent (final (activate_microphone seat s)) = [] /\
  sent (final (deactivate_microphone seat s)) = [].
Proof.
  intros s seat.
  destruct (microphone_commands_dropped_when_not_connected s seat eq_refl) as [Ha Hd].
  rewrite Ha, Hd. repeat split.
Defined.

(** ** Commands without a screen line *)

(** C9.  Each of the three command handlers, given no argument or an
    empty string as first argument, returns normally after logging that no
    screen line was provided; the state (cached seats, cached discussion
    data, session traffic, OSC traffic) is exactly what it was. *)
Theorem handlers_reject_missing_screen_line :
  forall (s : state) (address : string) (rest : list pyval) (args : list pyval),
    args = [] \/ args = PyStr EmptyString :: rest ->
    (outcome (handle_mic_control address args s) = Ok tt
     /\ final (handle_mic_control address args s) = s
     /\ In (Log ERROR "No screen line provided for microphone control" [])
          (output (handle_mic_control address args s)))
    /\
    (outcome (handle_mic_activate_wrapper address args s) = Ok tt
     /\ final (handle_mic_activate_wrapper address args s) = s
     /\ In (Log ERROR "No screen line provided for mic activation" [])
          (output (handle_mic_activate_wrapper address args s)))
    /\
    (outcome (handle_mic_deactivate_wrapper address args s) = Ok tt
     /\ final (handle_mic_deactivate_wrapper address args s) = s
     /\ In (Log ERROR "No screen line provided for mic deactivation" [])
          (output (handle_mic_deactivate_wrapper address args s))).
Proof.
  intros s address rest args [-> | ->];
    repeat split; cbn; auto.
Qed.

Lemma handlers_reject_missing_screen_line_witness :
  let s := init "10.0.0.5" (PyStr "admin") (PyStr "secret") [] true [] in
  final (handle_mic_control "/dicentis/mic/control" [] s) = s
  /\ final (handle_mic_activate_wrapper "/dicentis/mic/activate" [PyStr EmptyString] s) = s.
Proof.
  intro s. split.
  - apply (handlers_reject_missing_screen_line s "/dicentis/mic/control" [] []).
    left; reflexivity.
  - apply (handlers_reject_missing_screen_line s "/dicentis/mic/activate" []
             [PyStr EmptyString]).
    right; reflexivity.
Defined.

(** ** One poll tick *)

Lemma collect_active_spec :
  forall (items acc : list pyval) (s : state),
    Forall (fun v => is_dict v = true) items ->
    exists ev,
      collect_active items acc s = (Ok (acc ++ active_screen_lines items), s, ev).
Proof.
  induction items as [| entry rest IH]; intros acc s Hall.
  - exists []. cbn. now rewrite app_nil_r.
  - inversion Hall as [| ? ? Hentry Hrest]; subst.
    destruct entry; try discriminate.
    unfold active_screen_lines. cbn [collect_active filter].
    unfold bind at 1. cbn [lift Py.get].
    unfold bind at 1. cbn [lift].
    unfold bind at 1. cbn [logger].
    unfold microphone_on, screen_line_of. cbn [Py.get].
    destruct (Py.eq_str _ "on").
    + destruct (IH (acc ++ [match Py.dict_get d (PyStr "screenLine") with
                             | Some v => v
                             | None => PyStr "Unknown"
                             end]) s Hrest) as [ev Hev].
      rewrite Hev. eexists. cbn [map]. rewrite <- app_assoc. reflexivity.
    + destruct (IH acc s Hrest) as [ev Hev].
      rewrite Hev. eexists. reflexivity.
Qed.

Lemma get_discussion_list_parsed :
  forall (s : state) (uri : string) (d : pyval) (rest : list payload)
         (parameters : pyval),
    websocket s = Some uri ->
    inbox s = Parsed d :: rest ->
    Py.get d "parameters" (PyDict []) = Ok parameters ->
    is_dict parameters = true ->
    exists ev,
      get_discussion_list s =
        (Ok d,
         set_inbox rest (set_sent (sent s ++ [request "GetDiscussionList"]) s),
         ev).
Proof.
  intros s uri d rest parameters Hws Hin Hp Hd.
  destruct d; try discriminate.
  destruct parameters; try discriminate.
  destruct s; cbn in Hws, Hin; subst.
  unfold get_discussion_list.
  run. cbn in Hp.
  destruct (Py.eq_str _ "error").
  - injection Hp as Hp. rewrite Hp. run. eexists; reflexivity.
  - run. eexists; reflexivity.
Qed.

Lemma poll_tick_snapshot :
  forall (s : state) (uri : string) (d : pyval) (rest : list payload)
         (parameters : pyval) (snapshot : list pyval),
    websocket s = Some uri ->
    inbox s = Parsed d :: rest ->
    Py.get d "parameters" (PyDict []) = Ok parameters ->
    Py.get parameters "discussionList" (PyList []) = Ok (PyList snapshot) ->
    Forall (fun entry => is_dict entry = true) snapshot ->
    exists ev,
      poll_tick s = (Ok tt, after_tick d rest (active_screen_lines snapshot) s, ev).
Proof.
  intros s uri d rest parameters snapshot Hws Hin Hp Hl Hall.
  assert (Hd : is_dict parameters = true)
    by (destruct parameters; try discriminate; reflexivity).
  destruct (get_discussion_list_parsed s uri d rest parameters Hws Hin Hp Hd)
    as [ev Hev].
  unfold poll_tick. unfold bind at 1. rewrite Hev.
  run. rewrite Hp. cbn. rewrite Hl. cbn.
  match goal with
  | |- context [collect_active snapshot [] ?st] =>
      destruct (collect_active_spec snapshot [] st Hall) as [ev' Hev'];
      rewrite Hev'
  end.
  cbn. unfold after_tick.
  destruct (active_screen_lines snapshot); cbn; eexists; reflexivity.
Qed.



(** ** An unparsable discussion list *)




(** ** Seat numbers *)










(** ** Looking a seat up by its screen line *)

Lemma enhanced_seat_data_dict :
  forall (d : dict) (s : state),
    enhanced_seat_data (PyDict d) s = (Ok (enhance d), s, []).
Proof.
  intros d s. unfold enhanced_seat_data, enhance, Py.por. run.
  destruct (Py.truthy _); reflexivity.
Qed.






(** ** The connect sequence on a failed seat retrieval *)

Lemma login_accepted :
  forall (s : state) (uri : string) (l op : pyval) (rest : list payload),
    websocket s = Some uri ->
    inbox s = Parsed l :: rest ->
    Py.get l "operation" PyNone = Ok op ->
    Py.eq_str op "error" = false ->
    login s =
      (Ok tt,
       set_inbox rest
         (set_sent (sent s ++ [login_request (username s) (password s)]) s),
       [Log INFO "Login Response: {response}" [F (Parsed l)]]).
Proof.
  intros s uri l op rest Hws Hin Hl Hop.
  destruct l as [| | | | | | ld]; try discriminate.
  destruct s; cbn in Hws, Hin; subst.
  cbn [Py.get] in Hl. injection Hl as Hl.
  unfold login. run. rewrite Hl, Hop. reflexivity.
Qed.

Lemma get_seats_info_error :
  forall (s : state) (uri : string) (r : pyval) (p : dict) (rest : list payload),
    websocket s = Some uri ->
    inbox s = Parsed r :: rest ->
    Py.get r "operation" PyNone = Ok (PyStr "error") ->
    Py.get r "parameters" (PyDict []) = Ok (PyDict p) ->
    get_seats_info s =
      (Ok r,
       set_inbox rest (set_sent (sent s ++ [request "getseats"]) s),
       [Log INFO "Raw Seats Response:" [];
        Log INFO "{response}" [F (Parsed r)];
        Log CRITICAL "Seats retrieval failed: {error_message}" [V (error_message_of p)];
        Stdout "Failed to retrieve seats. Error: {error_message}" [V (error_message_of p)];
        Log INFO "Parsed Seats Response:" [];
        Log INFO "{json.dumps(seats_data, indent=2)}" [V r]]).
Proof.
  intros s uri r p rest Hws Hin Hr Hp.
  destruct r as [| | | | | | rd]; try discriminate.
  destruct s; cbn in Hws, Hin; subst.
  cbn [Py.get] in Hr, Hp. injection Hr as Hr. injection Hp as Hp.
  unfold get_seats_info. run. rewrite Hr. cbn. rewrite Hp. reflexivity.
Qed.

Lemma process_seats_info_without_seats :
  forall (s : state) (r : pyval) (p : dict),
    Py.get r "parameters" (PyDict []) = Ok (PyDict p) ->
    Py.dict_get p (PyStr "seats") = None ->
    process_seats_info r s =
      (Ok tt,
       set_seat_details [] (set_seat_info [] s),
       [Log INFO "Retrieved seat info for {len(self.seat_info)} seats" [V (PyInt 0)];
        Log DEBUG "Seat info details: {self.seat_info}" [V (PyDict [])];
        Log DEBUG "Seat details: {self.seat_details}" [V (PyDict [])]]).
Proof.
  intros s r p Hp Hseats.
  unfold process_seats_info. unfold bind at 1. rewrite Hp. cbn [lift].
  run. rewrite Hseats. reflexivity.
Qed.

Lemma connect_error_run :
  forall (s : state) (l op r : pyval) (p : dict) (rest : list payload),
    server_up s = true ->
    inbox s = Parsed l :: Parsed r :: rest ->
    Py.get l "operation" PyNone = Ok op ->
    Py.eq_str op "error" = false ->
    Py.get r "operation" PyNone = Ok (PyStr "error") ->
    Py.get r "parameters" (PyDict []) = Ok (PyDict p) ->
    Py.dict_get p (PyStr "seats") = None ->
    exists (s' : state) (ev1 ev2 : list event),
      connect s =
        (Ok tt, s',
         ev1 ++ Log CRITICAL "Seats retrieval failed: {error_message}"
                  [V (error_message_of p)] :: ev2)
      /\ seat_info s' = [] /\ seat_details s' = [].
Proof.
  intros s l op r p rest Hup Hin Hl Hop Hr Hp Hseats.
  set (uri := ("wss://" ++ server_ip s ++ ":31416/Dicentis/API")%string).
  set (s1 := set_websocket (Some uri) s).
  pose proof (login_accepted s1 uri l op (Parsed r :: rest) eq_refl Hin Hl Hop)
    as Hlogin.
  set (s2 := set_inbox (Parsed r :: rest)
               (set_sent (sent s1 ++ [login_request (username s1) (password s1)]) s1))
    in Hlogin.
  pose proof (get_seats_info_error s2 uri r p rest eq_refl eq_refl Hr Hp) as Hget.
  set (s3 := set_inbox rest (set_sent (sent s2 ++ [request "getseats"]) s2)) in Hget.
  pose proof (process_seats_info_without_seats s3 r p Hp Hseats) as Hproc.
  assert (Hconnect :
    connect s =
      (Ok tt, set_seat_details [] (set_seat_info [] s3),
       [Log INFO "Login Response: {response}" [F (Parsed l)]]
       ++ ([Log INFO "Raw Seats Response:" [];
            Log INFO "{response}" [F (Parsed r)];
            Log CRITICAL "Seats retrieval failed: {error_message}" [V (error_message_of p)];
            Stdout "Failed to retrieve seats. Error: {error_message}" [V (error_message_of p)];
            Log INFO "Parsed Seats Response:" [];
            Log INFO "{json.dumps(seats_data, indent=2)}" [V r]]
           ++ [Log INFO "Retrieved seat info for {len(self.seat_info)} seats" [V (PyInt 0)];
               Log DEBUG "Seat info details: {self.seat_info}" [V (PyDict [])];
               Log DEBUG "Seat details: {self.seat_details}" [V (PyDict [])]]))).
  { unfold connect, retrieve_seat_info.
    cbv [bind get_state websockets_connect modify]. rewrite Hup.
    fold uri. fold s1. rewrite Hlogin, Hget, Hproc. reflexivity. }
  rewrite Hconnect.
  exists (set_seat_details [] (set_seat_info [] s3)).
  exists [Log INFO "Login Response: {response}" [F (Parsed l)];
          Log INFO "Raw Seats Response:" [];
          Log INFO "{response}" [F (Parsed r)]].
  eexists. split; [reflexivity | split; reflexivity].
Qed.

(** C6, amended.  When the response to [getseats] is tagged as an error
    and has the error shape of the protocol (its parameters, if any, are an
    object without a seat list), the connect sequence returns normally, the
    failure is logged with the server's message, and both mappings of the
    seat directory are empty. *)
Theorem connect_survives_seat_retrieval_error :
  forall (s : state) (l op r : pyval) (p : dict) (rest : list payload),
    server_up s = true ->
    inbox s = Parsed l :: Parsed r :: rest ->
    Py.get l "operation" PyNone = Ok op ->
    Py.eq_str op "error" = false ->
    Py.get r "operation" PyNone = Ok (PyStr "error") ->
    Py.get r "parameters" (PyDict []) = Ok (PyDict p) ->
    Py.dict_get p (PyStr "seats") = None ->
    outcome (connect s) = Ok tt
    /\ seat_info (final (connect s)) = []
    /\ seat_details (final (connect s)) = []
    /\ In (Log CRITICAL "Seats retrieval failed: {error_message}"
             [V (error_message_of p)])
         (output (connect s)).
Proof.
  intros s l op r p rest Hup Hin Hl Hop Hr Hp Hseats.
  destruct (connect_error_run s l op r p rest Hup Hin Hl Hop Hr Hp Hseats)
    as (s' & ev1 & ev2 & Hrun & Hinfo & Hdetails).
  rewrite Hrun. unfold outcome, final, output. cbn [fst snd].
  repeat split; auto.
  apply in_or_app. right. left. reflexivity.
Qed.

Lemma connect_survives_seat_retrieval_error_witness :
  let s := init "10.0.0.5" (PyStr "admin") (PyStr "secret") [] true
             [Parsed login_ok;
              Parsed (error_response (PyDict [(PyStr "message", PyStr "Not allowed")]))] in
  outcome (connect s) = Ok tt /\ seat_info (final (connect s)) = [].
Proof.
  intro s.
  destruct (connect_survives_seat_retrieval_error s login_ok (PyStr "login")
              (error_response (PyDict [(PyStr "message", PyStr "Not allowed")]))
              [(PyStr "message", PyStr "Not allowed")] []
              eq_refl eq_refl eq_refl eq_refl eq_refl eq_refl eq_refl)
    as (Hok & Hinfo & _).
  split; [exact Hok | exact Hinfo].
Defined.

(** C6 as stated fails on two [getseats] responses tagged as errors: one
    that carries a seat list all the same leaves a seat in the directory;
    one whose parameters are [null] makes the connect sequence raise. *)
Lemma error_tagged_response_may_fill_directory_or_raise :
  let with_seat :=
    error_response
      (PyDict [(PyStr "message", PyStr "busy");
               (PyStr "seats", PyList [seat_record "Seat 1" "A" EmptyString])]) in
  let with_null := error_response PyNone in
  let start (r : pyval) :=
    init "10.0.0.5" (PyStr "admin") (PyStr "secret") [] true
      [Parsed login_ok; Parsed r] in
  Py.get with_seat "operation" PyNone = Ok (PyStr "error")
  /\ Py.get with_null "operation" PyNone = Ok (PyStr "error")
  /\ outcome (connect (start with_seat)) = Ok tt
  /\ seat_info (final (connect (start with_seat)))
     = [(PyInt 1, seat_entry (PyStr "Seat 1") (PyStr "A"))]
  /\ seat_info (final (connect (start with_seat))) <> []
  /\ outcome (connect (start with_null)) = Raise AttributeError.
Proof.
  intros with_seat with_null start.
  repeat split. discriminate.
Qed.

(** ** The toggle command *)

Lemma find_mic_state_reads :
  forall (l : list pyval) (line : string) (s : state),
    exists r ev, find_mic_state line l s = (r, s, ev).
Proof.
  induction l as [| entry rest IH]; intros line s.
  - do 2 eexists. reflexivity.
  - cbn [find_mic_state]. run.
    destruct (Py.get entry "screenLine" PyNone) as [v |]; cbn.
    + destruct (Py.eq_str v line).
      * destruct (Py.get entry "microphoneState" (PyStr "off"));
          cbn; do 2 eexists; reflexivity.
      * destruct (IH line s) as (r & ev & Hr). rewrite Hr.
        do 2 eexists; reflexivity.
    + do 2 eexists; reflexivity.
Qed.

Lemma find_mic_state_snapshot :
  forall (l : list pyval) (line : string) (s : state),
    Forall (fun entry => is_dict entry = true) l ->
    exists ev, find_mic_state line l s = (Ok (mic_state_in l line), s, ev).
Proof.
  induction l as [| entry rest IH]; intros line s Hall.
  - eexists. reflexivity.
  - inversion Hall as [| ? ? Hentry Hrest]; subst.
    destruct entry; try discriminate.
    cbn [find_mic_state mic_state_in]. run.
    destruct (Py.eq_str _ line).
    + eexists; reflexivity.
    + destruct (IH line s Hrest) as [ev Hev]. rewrite Hev.
      eexists; reflexivity.
Qed.

(** [get_current_mic_state] always returns, and only reads. *)
Lemma get_current_mic_state_reads :
  forall (line : string) (s : state),
    exists v ev, get_current_mic_state line s = (Ok v, s, ev).
Proof.
  intros line s. unfold get_current_mic_state. run.
  destruct (Py.truthy (last_discussion_data s)); cbn;
    [| do 2 eexists; reflexivity].
  destruct (Py.get (last_discussion_data s) "parameters" (PyDict []))
    as [parameters |]; cbn; [| do 2 eexists; reflexivity].
  destruct (Py.get parameters "discussionList" (PyList []))
    as [discussion_list |]; cbn; [| do 2 eexists; reflexivity].
  destruct (Py.iter discussion_list) as [items |]; cbn;
    [| do 2 eexists; reflexivity].
  destruct (find_mic_state_reads items line s) as (r & ev & Hr).
  rewrite Hr. destruct r; cbn; do 2 eexists; reflexivity.
Qed.

Lemma get_current_mic_state_snapshot :
  forall (line : string) (s : state) (parameters : pyval) (snapshot : list pyval),
    Py.get (last_discussion_data s) "parameters" (PyDict []) = Ok parameters ->
    Py.get parameters "discussionList" (PyList []) = Ok (PyList snapshot) ->
    Forall (fun entry => is_dict entry = true) snapshot ->
    outcome (get_current_mic_state line s) = Ok (mic_state_in snapshot line).
Proof.
  intros line s parameters snapshot Hp Hl Hall.
  unfold get_current_mic_state. run.
  destruct (Py.truthy (last_discussion_data s)) eqn:Ht; cbn.
  - rewrite Hp. cbn. rewrite Hl. cbn.
    destruct (find_mic_state_snapshot snapshot line s Hall) as [ev Hev].
    rewrite Hev. reflexivity.
  - destruct (last_discussion_data s) as [| | | | | | d]; try discriminate.
    destruct d; [| discriminate].
    cbn in Hp. injection Hp as <-. cbn in Hl. injection Hl as <-.
    reflexivity.
Qed.

Lemma mic_state_in_absent :
  forall (snapshot : list pyval) (line : string),
    (forall entry v, In entry snapshot ->
                     Py.get entry "screenLine" PyNone = Ok v ->
                     Py.eq_str v line = false) ->
    mic_state_in snapshot line = PyStr "off".
Proof.
  induction snapshot as [| entry rest IH]; intros line Habs; [reflexivity |].
  cbn [mic_state_in].
  destruct (Py.get entry "screenLine" PyNone) as [v |] eqn:Hv; [| reflexivity].
  rewrite (Habs entry v (or_introl eq_refl) Hv).
  apply IH. intros e w Hin. apply Habs. right. exact Hin.
Qed.

Lemma enhanced_seat_data_reads :
  forall (seat_data : pyval) (s : state),
    exists r, enhanced_seat_data seat_data s = (r, s, []).
Proof.
  intros seat_data s.
  destruct seat_data; try (eexists; reflexivity).
  rewrite enhanced_seat_data_dict. eexists; reflexivity.
Qed.

Lemma exact_match_reads :
  forall (items : dict) (normalized : string) (s : state),
    exists r ev, exact_match normalized items s = (r, s, ev).
Proof.
  induction items as [| [k seat_data] rest IH]; intros normalized s.
  - do 2 eexists; reflexivity.
  - cbn [exact_match]. run.
    destruct (Py.get seat_data "screenLine" (PyStr EmptyString)) as [v |]; cbn;
      [| do 2 eexists; reflexivity].
    destruct (Py.strip v) as [l |]; cbn; [| do 2 eexists; reflexivity].
    destruct (_ =? _)%string.
    + destruct (enhanced_seat_data_reads seat_data s) as [r Hr]. rewrite Hr.
      destruct r; do 2 eexists; reflexivity.
    + destruct (IH normalized s) as (r & ev & Hr). rewrite Hr.
      do 2 eexists; reflexivity.
Qed.

Lemma partial_match_reads :
  forall (items : dict) (normalized : string) (s : state),
    exists r ev, partial_match normalized items s = (r, s, ev).
Proof.
  induction items as [| [k seat_data] rest IH]; intros normalized s.
  - do 2 eexists; reflexivity.
  - cbn [partial_match]. run.
    destruct (Py.get seat_data "screenLine" (PyStr EmptyString)) as [v |]; cbn;
      [| do 2 eexists; reflexivity].
    destruct (Py.strip v) as [l |]; cbn; [| do 2 eexists; reflexivity].
    destruct (_ || _).
    + destruct (enhanced_seat_data_reads seat_data s) as [r Hr]. rewrite Hr.
      destruct r; do 2 eexists; reflexivity.
    + destruct (IH normalized s) as (r & ev & Hr). rewrite Hr.
      do 2 eexists; reflexivity.
Qed.

(** The lookup only reads the state. *)
Lemma get_seat_info_by_screen_line_reads :
  forall (screen_line : pyval) (s : state),
    exists r ev, get_seat_info_by_screen_line screen_line s = (r, s, ev).
Proof.
  intros screen_line s. unfold get_seat_info_by_screen_line. run.
  destruct (Py.strip screen_line) as [normalized |]; cbn;
    [| do 2 eexists; reflexivity].
  destruct (exact_match_reads (seat_info s) normalized s) as (r & ev & Hr).
  rewrite Hr. destruct r as [[e |] |]; cbn; try (do 2 eexists; reflexivity).
  destruct (partial_match_reads (seat_info s) normalized s) as (r' & ev' & Hr').
  rewrite Hr'. destruct r' as [[e |] |]; cbn; do 2 eexists; reflexivity.
Qed.

Lemma toggle_behaves :
  forall (s : state) (address line : string) (rest : list pyval) (v : pyval)
         (ev : list event),
    get_current_mic_state line s = (Ok v, s, ev) ->
    fst (handle_mic_control address (PyStr line :: rest) s)
    = if Py.eq_str v "on"
      then fst (handle_mic_deactivate_wrapper address (PyStr line :: rest) s)
      else fst (handle_mic_activate_wrapper address (PyStr line :: rest) s).
Proof.
  intros s address line rest v ev Hstate.
  destruct (get_seat_info_by_screen_line_reads (PyStr line) s) as (r & evl & Hl).
  unfold handle_mic_control, handle_mic_deactivate_wrapper,
    handle_mic_activate_wrapper, run_async_task.
  run.
  destruct (line =? EmptyString)%string; cbn.
  - destruct (Py.eq_str v "on"); reflexivity.
  - rewrite Hl. destruct r as [seat | e]; cbn.
    + destruct (Py.truthy seat); cbn.
      * rewrite Hstate. cbn.
        destruct (Py.eq_str v "on"); cbn.
        -- destruct (deactivate_microphone seat s) as [[[[] | e] s'] ev'];
             reflexivity.
        -- destruct (activate_microphone seat s) as [[[[] | e] s'] ev'];
             reflexivity.
      * destruct (Py.eq_str v "on"); reflexivity.
    + destruct (Py.eq_str v "on"); reflexivity.
Qed.

Lemma wrappers_run_the_request :
  forall (s : state) (address line : string) (rest : list pyval) (seat : pyval),
    line <> EmptyString ->
    outcome (get_seat_info_by_screen_line (PyStr line) s) = Ok seat ->
    Py.truthy seat = true ->
    fst (handle_mic_deactivate_wrapper address (PyStr line :: rest) s)
    = fst (run_async_task (deactivate_microphone seat) s)
    /\ fst (handle_mic_activate_wrapper address (PyStr line :: rest) s)
       = fst (run_async_task (activate_microphone seat) s).
Proof.
  intros s address line rest seat Hne Hseat Htruthy.
  destruct (get_seat_info_by_screen_line_reads (PyStr line) s) as (r & evl & Hl).
  rewrite Hl in Hseat. cbn in Hseat. subst r.
  apply String.eqb_neq in Hne.
  unfold handle_mic_deactivate_wrapper, handle_mic_activate_wrapper, run_async_task.
  run. rewrite Hne. cbn. rewrite Hl. cbn. rewrite Htruthy.
  split.
  - destruct (deactivate_microphone seat s) as [[[[] | e] s'] ev']; reflexivity.
  - destruct (activate_microphone seat s) as [[[[] | e] s'] ev']; reflexivity.
Qed.

(** C3.  A toggle command whose screen line resolves to a seat reads the
    microphone state from the cached discussion data without changing
    anything: the state is off when nothing is cached, and for a cached
    snapshot it is the state of the entry with that screen line, off when
    the screen line is absent.  If the state read is on, the command has
    the result and effect of the deactivate command (it runs
    [deactivate_microphone] on the resolved seat); otherwise it has those of
    the activate command. *)
Theorem toggle_reads_cached_state_and_dispatches :
  forall (s : state) (address line : string) (rest : list pyval) (seat : pyval),
    line <> EmptyString ->
    outcome (get_seat_info_by_screen_line (PyStr line) s) = Ok seat ->
    Py.truthy seat = true ->
    exists v : pyval,
      outcome (get_current_mic_state line s) = Ok v
      /\ final (get_current_mic_state line s) = s
      /\ (last_discussion_data s = PyNone -> v = PyStr "off")
      /\ (forall (parameters : pyval) (snapshot : list pyval),
            Py.get (last_discussion_data s) "parameters" (PyDict []) = Ok parameters ->
            Py.get parameters "discussionList" (PyList []) = Ok (PyList snapshot) ->
            Forall (fun entry => is_dict entry = true) snapshot ->
            v = mic_state_in snapshot line
            /\ ((forall entry w, In entry snapshot ->
                                 Py.get entry "screenLine" PyNone = Ok w ->
                                 Py.eq_str w line = false) ->
                v = PyStr "off"))
      /\ (Py.eq_str v "on" = true ->
          fst (handle_mic_control address (PyStr line :: rest) s)
          = fst (handle_mic_deactivate_wrapper address (PyStr line :: rest) s)
          /\ fst (handle_mic_control address (PyStr line :: rest) s)
             = fst (run_async_task (deactivate_microphone seat) s))
      /\ (Py.eq_str v "on" = false ->
          fst (handle_mic_control address (PyStr line :: rest) s)
          = fst (handle_mic_activate_wrapper address (PyStr line :: rest) s)
          /\ fst (handle_mic_control address (PyStr line :: rest) s)
             = fst (run_async_task (activate_microphone seat) s)).
Proof.
  intros s address line rest seat Hne Hseat Htruthy.
  destruct (get_current_mic_state_reads line s) as (v & ev & Hv).
  destruct (wrappers_run_the_request s address line rest seat Hne Hseat Htruthy)
    as [Hde Hac].
  pose proof (toggle_behaves s address line rest v ev Hv) as Htoggle.
  exists v. rewrite Hv. cbn [outcome final fst snd].
  split; [reflexivity |]. split; [reflexivity |].
  split; [| split; [| split]].
  - intro Hnone. unfold get_current_mic_state in Hv. revert Hv. run.
    rewrite Hnone. cbn. congruence.
  - intros parameters snapshot Hp Hl Hall.
    pose proof (get_current_mic_state_snapshot line s parameters snapshot Hp Hl Hall)
      as Hsnap.
    rewrite Hv in Hsnap. cbn in Hsnap. injection Hsnap as Hsnap.
    split; [exact Hsnap |].
    intro Habs. rewrite Hsnap. apply mic_state_in_absent. exact Habs.
  - intro Hon. rewrite Hon in Htoggle. rewrite Htoggle. auto.
  - intro Hoff. rewrite Hoff in Htoggle. rewrite Htoggle. auto.
Qed.

(** The second scenario of the specification, as far as the toggle goes:
    MALTA is cached as on, so the toggle is a deactivation and one
    [DeactivateMicrophone] request is sent. *)
Lemma toggle_reads_cached_state_and_dispatches_witness :
  let s := malta "on" [Parsed ack] in
  fst (handle_mic_control "/dicentis/mic/control" [PyStr "MALTA"] s)
  = fst (handle_mic_deactivate_wrapper "/dicentis/mic/control" [PyStr "MALTA"] s)
  /\ exists seat_id,
       sent (final (handle_mic_control "/dicentis/mic/control" [PyStr "MALTA"] s))
       = [mic_request "DeactivateMicrophone" seat_id].
Proof.
  intro s.
  destruct (toggle_reads_cached_state_and_dispatches s "/dicentis/mic/control"
              "MALTA" []
              (PyDict [(PyStr "seatName", PyStr "Seat 3");
                       (PyStr "screenLine", PyStr "MALTA");
                       (PyStr "participantId", PyStr "Seat 3")]))
    as (v & Hv & _ & _ & _ & Hon & _).
  - discriminate.
  - reflexivity.
  - reflexivity.
  - assert (Hstate : v = PyStr "on") by (vm_compute in Hv; congruence).
    split.
    + apply Hon. rewrite Hstate. reflexivity.
    + eexists. reflexivity.
Defined.

(** ** The seat identifier on the wire *)

Lemma dict_set_shape :
  forall (directory : dict) (k name line : pyval),
    Py.truthy name = true ->
    directory_shape directory ->
    directory_shape (Py.dict_set directory k (seat_entry name line)).
Proof.
  unfold directory_shape.
  induction directory as [| [k' v'] rest IH]; intros k name line Hname Hshape.
  - constructor; [| constructor]. now exists name, line.
  - inversion Hshape as [| ? ? Hhead Hrest]; subst.
    cbn [Py.dict_set]. destruct (Py.key_eqb k' k).
    + constructor; [| exact Hrest]. now exists name, line.
    + constructor; [exact Hhead | now apply IH].
Qed.

Lemma process_seat_shape :
  forall (seat : pyval) (s : state),
    directory_shape (seat_info s) ->
    directory_shape (seat_info (final (process_seat seat s))).
Proof.
  intros seat s Hshape. unfold process_seat. run.
  destruct (Py.get seat "seatName" (PyStr EmptyString)) as [seat_name |];
    cbn; [| exact Hshape].
  destruct (Py.get seat "screenLine" (PyStr EmptyString)) as [screen_line |];
    cbn; [| exact Hshape].
  assert (Hstore :
    Py.truthy seat_name = true ->
    forall n : Z,
      directory_shape
        (Py.dict_set (seat_info s) (PyInt n) (seat_entry seat_name screen_line)))
    by (intros Hname n; now apply dict_set_shape).
  destruct (Py.truthy seat_name); cbn.
  - destruct (Py.get seat "hideSeat" (PyBool false)) as [hide |];
      cbn; [| exact Hshape].
    destruct (Py.truthy hide); cbn; [exact Hshape |].
    destruct (seat_number_of seat_name) as [n | e]; cbn.
    + destruct (Py.get seat "seatId" (PyStr EmptyString)); cbn; [| exact Hshape].
      destruct (Py.get seat "seatedParticipantId" (PyStr EmptyString));
        cbn; [| exact Hshape].
      destruct (Py.hashable screen_line); cbn; now apply Hstore.
    + destruct e; cbn; exact Hshape.
  - exact Hshape.
Qed.

Lemma for_each_preserves :
  forall (A : Type) (body : A -> M unit) (P : state -> Prop),
    (forall x s, P s -> P (final (body x s))) ->
    forall (l : list A) (s : state), P s -> P (final (for_each body l s)).
Proof.
  intros A body P Hbody.
  induction l as [| x rest IH]; intros s Hs; [exact Hs |].
  cbn [for_each]. unfold bind.
  pose proof (Hbody x s Hs) as Hx.
  destruct (body x s) as [[[[] | e] s1] ev1]; cbn in Hx |- *; [| exact Hx].
  pose proof (IH s1 Hx) as Hrest.
  destruct (for_each body rest s1) as [[r s2] ev2]. exact Hrest.
Qed.

(** Whatever the response, a directory that [process_seats_info] has
    built has the shape above: no entry records a participant. *)
Lemma process_seats_info_shape :
  forall (seats_data : pyval) (s : state),
    outcome (process_seats_info seats_data s) = Ok tt ->
    directory_shape (seat_info (final (process_seats_info seats_data s))).
Proof.
  intros seats_data s. unfold process_seats_info. run.
  destruct (Py.get seats_data "parameters" (PyDict [])) as [parameters |];
    cbn; [| discriminate].
  destruct (Py.get parameters "seats" (PyList [])) as [seats |];
    cbn; [| discriminate].
  destruct (Py.iter seats) as [items |]; cbn; [| discriminate].
  pose proof (for_each_preserves pyval process_seat
                (fun st => directory_shape (seat_info st)) process_seat_shape
                items (set_seat_details [] (set_seat_info [] s))) as Hloop.
  destruct (for_each process_seat items _) as [[[[] | e] s1] ev1]; cbn in *.
  - intros _. apply Hloop. constructor.
  - discriminate.
Qed.

Lemma exact_match_resolved :
  forall (items : dict) (normalized : string) (s s' : state) (e : pyval)
         (ev : list event),
    directory_shape items ->
    exact_match normalized items s = (Ok (Some e), s', ev) ->
    exists name line, e = resolved_seat name line /\ Py.truthy name = true.
Proof.
  induction items as [| [k seat_data] rest IH];
    intros normalized s s' e ev Hshape Hrun.
  - discriminate.
  - inversion Hshape as [| ? ? (name & line & Hentry & Hname) Hrest]; subst.
    cbn [snd] in Hentry. subst seat_data.
    revert Hrun. cbn [exact_match]. run.
    destruct (Py.strip line) as [l |]; cbn; [| discriminate].
    destruct (_ =? _)%string.
    + unfold seat_entry. rewrite enhanced_seat_data_dict. cbn.
      intro Hrun. injection Hrun as <- _ _. exists name, line.
      split; [reflexivity | exact Hname].
    + destruct (exact_match normalized rest s) as [[r s1] ev1] eqn:Hrec.
      intro Hrun. injection Hrun as -> -> _.
      eapply IH; eauto.
Qed.


Lemma partial_match_resolved :
  forall (items : dict) (normalized : string) (s s' : state) (e : pyval)
         (ev : list event),
    directory_shape items ->
    partial_match normalized items s = (Ok (Some e), s', ev) ->
    exists name line, e = resolved_seat name line /\ Py.truthy name = true.
Proof.
  induction items as [| [k seat_data] rest IH];
    intros normalized s s' e ev Hshape Hrun.
  - discriminate.
  - inversion Hshape as [| ? ? (name & line & Hentry & Hname) Hrest]; subst.
    cbn [snd] in Hentry. subst seat_data.
    revert Hrun. cbn [partial_match]. run.
    destruct (Py.strip line) as [l |]; cbn; [| discriminate].
    destruct (_ || _).
    + unfold seat_entry. rewrite enhanced_seat_data_dict. cbn.
      intro Hrun. injection Hrun as <- _ _. exists name, line.
      split; [reflexivity | exact Hname].
    + destruct (partial_match normalized rest s) as [[r s1] ev1] eqn:Hrec.
      intro Hrun. injection Hrun as -> -> _.
      eapply IH; eauto.
Qed.

(** In a directory of that shape a lookup that finds a seat returns it
    with its seat name as participant identity. *)
Lemma lookup_resolved :
  forall (screen_line seat : pyval) (s : state),
    directory_shape (seat_info s) ->
    outcome (get_seat_info_by_screen_line screen_line s) = Ok seat ->
    Py.truthy seat = true ->
    exists name line, seat = resolved_seat name line /\ Py.truthy name = true.
Proof.
  intros screen_line seat s Hshape. unfold get_seat_info_by_screen_line. run.
  destruct (Py.strip screen_line) as [normalized |]; cbn; [| discriminate].
  destruct (exact_match normalized (seat_info s) s) as [[r s1] ev1] eqn:Hexact.
  destruct r as [[e |] | x]; cbn; [| | discriminate].
  - intros Hseat _. injection Hseat as <-.
    eapply exact_match_resolved; eauto.
  - destruct (partial_match normalized (seat_info s) s1) as [[r s2] ev2] eqn:Hpartial.
    destruct r as [[e |] | x]; cbn; [| | discriminate].
    + intros Hseat _. injection Hseat as <-.
      eapply partial_match_resolved; eauto.
    + intros Hseat Htruthy. injection Hseat as <-. discriminate.
Qed.

(** On an open connection, the requests for a resolved seat carry its seat
    name as [seatid], whatever the server answers. *)
Lemma requests_carry_seat_name :
  forall (s : state) (uri : string) (name line : pyval),
    websocket s = Some uri ->
    Py.truthy name = true ->
    sent (final (run_async_task (activate_microphone (resolved_seat name line)) s))
    = sent s ++ [mic_request "ActivateMicrophone" name]
    /\ sent (final (run_async_task (deactivate_microphone (resolved_seat name line)) s))
       = sent s ++ [mic_request "DeactivateMicrophone" name].
Proof.
  intros s uri name line Hws Hname.
  destruct s; cbn in Hws; subst.
  unfold run_async_task, activate_microphone, deactivate_microphone.
  run. repeat (rewrite Hname; cbn).
  split.
  all: repeat (cbn;
         match goal with
         | |- context [match ?x with _ => _ end] => is_var x; destruct x
         | |- context [match Py.get ?a ?b ?c with _ => _ end] =>
             destruct (Py.get a b c)
         | |- context [if Py.eq_str ?a ?b then _ else _] =>
             destruct (Py.eq_str a b)
         end).
  all: reflexivity.
Qed.

(** For every directory [process_seats_info] has built and every command
    whose screen line resolves to a seat, the request sent carries the
    seat name of the resolved seat. *)
Lemma seatid_is_the_seat_name :
  forall (s : state) (uri address line : string) (rest : list pyval)
         (seat : pyval),
    directory_shape (seat_info s) ->
    websocket s = Some uri ->
    line <> EmptyString ->
    outcome (get_seat_info_by_screen_line (PyStr line) s) = Ok seat ->
    Py.truthy seat = true ->
    exists name l,
      seat = resolved_seat name l
      /\ sent (final (handle_mic_activate_wrapper address (PyStr line :: rest) s))
         = sent s ++ [mic_request "ActivateMicrophone" name]
      /\ sent (final (handle_mic_deactivate_wrapper address (PyStr line :: rest) s))
         = sent s ++ [mic_request "DeactivateMicrophone" name]
      /\ (sent (final (handle_mic_control address (PyStr line :: rest) s))
          = sent s ++ [mic_request "DeactivateMicrophone" name]
          \/ sent (final (handle_mic_control address (PyStr line :: rest) s))
             = sent s ++ [mic_request "ActivateMicrophone" name]).
Proof.
  intros s uri address line rest seat Hshape Hws Hne Hseat Htruthy.
  destruct (lookup_resolved (PyStr line) seat s Hshape Hseat Htruthy)
    as (name & l & -> & Hname).
  destruct (wrappers_run_the_request s address line rest _ Hne Hseat Htruthy)
    as [Hde Hac].
  destruct (requests_carry_seat_name s uri name l Hws Hname) as [Hact Hdeact].
  destruct (get_current_mic_state_reads line s) as (v & ev & Hv).
  pose proof (toggle_behaves s address line rest v ev Hv) as Htoggle.
  exists name, l. unfold final in *.
  split; [reflexivity |].
  split; [now rewrite Hac |].
  split; [now rewrite Hde |].
  rewrite Htoggle. destruct (Py.eq_str v "on").
  - left. now rewrite Hde.
  - right. now rewrite Hac.
Qed.

(** C1, evaluated.  The server's record of seat "Seat 3" (screen line
    "MALTA") carries the non-empty participant identifier "P42", which
    [process_seats_info] files under [self.seat_details]; the lookup reads
    [self.seat_info], which has no participant identifier, so the requests
    of the activate, deactivate and toggle commands all carry the seat name
    "Seat 3" as [seatid], not "P42". *)
Theorem seatid_sent_is_seat_name_despite_participant :
  let s := malta "on" [Parsed ack] in
  Py.dict_get (seat_details s) (PyStr "MALTA")
  = Some (PyDict [(PyStr "seatName", PyStr "Seat 3");
                  (PyStr "screenLine", PyStr "MALTA");
                  (PyStr "seatId", PyStr "id");
                  (PyStr "participantId", PyStr "P42")])
  /\ seat_info s = [(PyInt 3, seat_entry (PyStr "Seat 3") (PyStr "MALTA"))]
  /\ sent (final (handle_mic_activate_wrapper "/dicentis/mic/activate"
                    [PyStr "MALTA"] s))
     = [mic_request "ActivateMicrophone" (PyStr "Seat 3")]
  /\ sent (final (handle_mic_deactivate_wrapper "/dicentis/mic/deactivate"
                    [PyStr "MALTA"] s))
     = [mic_request "DeactivateMicrophone" (PyStr "Seat 3")]
  /\ sent (final (handle_mic_control "/dicentis/mic/control" [PyStr "MALTA"] s))
     = [mic_request "DeactivateMicrophone" (PyStr "Seat 3")].
Proof.
  intro s. repeat split.
Qed.

(** ** What a command can do to the bridge *)

Lemma activate_microphone_effect :
  forall (seat : pyval) (s : state),
    outcome (activate_microphone seat s) = Ok tt
    /\ (final (activate_microphone seat s) = s
        \/ exists seat_id,
             Py.truthy seat_id = true
             /\ websocket s <> None
             /\ final (activate_microphone seat s)
                = after_exchange (mic_request "ActivateMicrophone" seat_id) s).
Proof.
  intros seat s. destruct s. unfold activate_microphone, after_exchange. run.
  destruct websocket0 as [uri |]; [| split; [reflexivity | left; reflexivity]].
  crunch.
  all: split; [reflexivity |].
  all: try (left; reflexivity).
  all: right; eexists; split; [eassumption |]; split; [discriminate | reflexivity].
Qed.

Lemma deactivate_microphone_effect :
  forall (seat : pyval) (s : state),
    outcome (deactivate_microphone seat s) = Ok tt
    /\ (final (deactivate_microphone seat s) = s
        \/ exists seat_id,
             Py.truthy seat_id = true
             /\ websocket s <> None
             /\ final (deactivate_microphone seat s)
                = after_exchange (mic_request "DeactivateMicrophone" seat_id) s).
Proof.
  intros seat s. destruct s. unfold deactivate_microphone, after_exchange. run.
  destruct websocket0 as [uri |]; [| split; [reflexivity | left; reflexivity]].
  crunch.
  all: split; [reflexivity |].
  all: try (left; reflexivity).
  all: right; eexists; split; [eassumption |]; split; [discriminate | reflexivity].
Qed.

Lemma run_async_task_activate :
  forall (seat : pyval) (s : state),
    outcome (run_async_task (activate_microphone seat) s) = Ok tt
    /\ command_effect s (final (run_async_task (activate_microphone seat) s)).
Proof.
  intros seat s.
  destruct (activate_microphone_effect seat s) as [Hok Heff].
  unfold run_async_task, try_except.
  destruct (activate_microphone seat s) as [[r s'] ev].
  cbn in Hok, Heff. subst r. cbn. split; [reflexivity |].
  destruct Heff as [-> | (seat_id & Hid & Hws & ->)]; [left; reflexivity |].
  right. exists "ActivateMicrophone", seat_id. auto.
Qed.

Lemma run_async_task_deactivate :
  forall (seat : pyval) (s : state),
    outcome (run_async_task (deactivate_microphone seat) s) = Ok tt
    /\ command_effect s (final (run_async_task (deactivate_microphone seat) s)).
Proof.
  intros seat s.
  destruct (deactivate_microphone_effect seat s) as [Hok Heff].
  unfold run_async_task, try_except.
  destruct (deactivate_microphone seat s) as [[r s'] ev].
  cbn in Hok, Heff. subst r. cbn. split; [reflexivity |].
  destruct Heff as [-> | (seat_id & Hid & Hws & ->)]; [left; reflexivity |].
  right. exists "DeactivateMicrophone", seat_id. auto.
Qed.

Lemma handlers_effect :
  forall (s : state) (address : string) (args : list pyval),
    (outcome (handle_mic_activate_wrapper address args s) = Ok tt
     /\ command_effect s (final (handle_mic_activate_wrapper address args s)))
    /\ (outcome (handle_mic_deactivate_wrapper address args s) = Ok tt
        /\ command_effect s (final (handle_mic_deactivate_wrapper address args s)))
    /\ (outcome (handle_mic_control address args s) = Ok tt
        /\ command_effect s (final (handle_mic_control address args s))).
Proof.
  intros s address args.
  destruct (get_seat_info_by_screen_line_reads (first_arg args) s)
    as (r & evl & Hl).
  assert (Hnone : command_effect s s) by (left; reflexivity).
  unfold handle_mic_activate_wrapper, handle_mic_deactivate_wrapper,
    handle_mic_control.
  run.
  destruct (Py.truthy (first_arg args)); cbn; [| auto].
  rewrite Hl. destruct r as [seat | e]; cbn; [| auto].
  destruct (Py.truthy seat); cbn; [| auto].
  pose proof (run_async_task_activate seat s) as [Hao Hae].
  pose proof (run_async_task_deactivate seat s) as [Hdo Hde].
  assert (Hcontrol :
    forall line, first_arg args = PyStr line ->
                 exists v ev, get_current_mic_state line s = (Ok v, s, ev))
    by (intros line _; apply get_current_mic_state_reads).
  destruct (first_arg args) as [| | | | line | |]; cbn.
  all: try (destruct (Hcontrol _ eq_refl) as (v & ev & Hv); rewrite Hv; cbn;
            destruct (Py.eq_str v "on"); cbn).
  all: destruct (run_async_task (activate_microphone seat) s) as [[ra sa] eva].
  all: destruct (run_async_task (deactivate_microphone seat) s) as [[rd sd] evd].
  all: cbn in Hao, Hae, Hdo, Hde; subst ra rd; cbn; auto.
Qed.

(** X1.  Whatever its arguments and whatever the state, a command handler
    returns normally, and it changes nothing but the session traffic: the
    seat directory, the cached discussion data, the connection handle and
    the published OSC messages stay as they were; at most one microphone
    request is added to the frames sent, and at most one frame of the
    server is taken. *)
Theorem handlers_return_and_touch_only_the_session_traffic :
  forall (handler : string -> list pyval -> M unit) (s : state)
         (address : string) (args : list pyval),
    In handler [handle_mic_activate_wrapper; handle_mic_deactivate_wrapper;
                handle_mic_control] ->
    let s' := final (handler address args s) in
    outcome (handler address args s) = Ok tt
    /\ seat_info s' = seat_info s
    /\ seat_details s' = seat_details s
    /\ last_discussion_data s' = last_discussion_data s
    /\ websocket s' = websocket s
    /\ osc_out s' = osc_out s
    /\ ((sent s' = sent s /\ inbox s' = inbox s)
        \/ exists operation seat_id,
             (operation = "ActivateMicrophone" \/ operation = "DeactivateMicrophone")
             /\ sent s' = sent s ++ [mic_request operation seat_id]
             /\ inbox s' = tl (inbox s)).
Proof.
  intros handler s address args Hin s'.
  destruct (handlers_effect s address args) as ((Hao & Hae) & (Hdo & Hde) & (Hco & Hce)).
  assert (Hgoal :
    outcome (handler address args s) = Ok tt
    /\ command_effect s (final (handler address args s))).
  { destruct Hin as [<- | [<- | [<- | []]]]; auto. }
  destruct Hgoal as [Hok Heff]. fold s' in Heff.
  split; [exact Hok |].
  destruct Heff as [-> | (operation & seat_id & Hop & _ & _ & ->)].
  - repeat split; auto.
  - destruct s; cbn. repeat split.
    right. exists operation, seat_id. auto.
Qed.

Lemma handlers_return_and_touch_only_the_session_traffic_witness :
  let s := malta "on" [Parsed ack] in
  let s' := final (handle_mic_control "/dicentis/mic/control" [PyStr "MALTA"] s) in
  seat_info s' = seat_info s /\ osc_out s' = osc_out s.
Proof.
  intros s s'.
  destruct (handlers_return_and_touch_only_the_session_traffic
              handle_mic_control s "/dicentis/mic/control" [PyStr "MALTA"])
    as (_ & Hinfo & _ & _ & _ & Hosc & _).
  - right; right; left; reflexivity.
  - split; [exact Hinfo | exact Hosc].
Defined.

(** X2.  While no connection is established, every command is dropped:
    whatever its arguments, the handler leaves the whole state as it was. *)
Theorem commands_without_connection_change_nothing :
  forall (s : state) (address : string) (args : list pyval),
    websocket s = None ->
    final (handle_mic_activate_wrapper address args s) = s
    /\ final (handle_mic_deactivate_wrapper address args s) = s
    /\ final (handle_mic_control address args s) = s.
Proof.
  intros s address args Hws.
  destruct (handlers_effect s address args) as ((_ & Hae) & (_ & Hde) & (_ & Hce)).
  repeat split.
  - destruct Hae as [-> | (? & ? & _ & _ & Hopen & _)]; [reflexivity | contradiction].
  - destruct Hde as [-> | (? & ? & _ & _ & Hopen & _)]; [reflexivity | contradiction].
  - destruct Hce as [-> | (? & ? & _ & _ & Hopen & _)]; [reflexivity | contradiction].
Qed.

Lemma commands_without_connection_change_nothing_witness :
  let s := set_websocket None (malta "on" [Parsed ack]) in
  final (handle_mic_control "/dicentis/mic/control" [PyStr "MALTA"] s) = s.
Proof.
  intro s.
  apply (commands_without_connection_change_nothing s "/dicentis/mic/control"
           [PyStr "MALTA"] eq_refl).
Defined.

(** ** The substring fallback of the lookup *)















Lemma exact_match_upper :
  forall (items : dict) (a b : string) (s : state),
    PyStrings.upper a = PyStrings.upper b ->
    exact_match a items s = exact_match b items s.
Proof.
  induction items as [| [k seat_data] rest IH]; intros a b s Hupper;
    [reflexivity |].
  cbn [exact_match]. unfold bind.
  destruct (lift (Py.get seat_data "screenLine" (PyStr EmptyString)) s)
    as [[[v | e] s1] ev1]; [| reflexivity].
  destruct (lift (Py.strip v) s1) as [[[l | e] s2] ev2]; [| reflexivity].
  destruct (logger DEBUG _ _ s2) as [[[u | e] s3] ev3]; [| reflexivity].
  rewrite Hupper.
  destruct (PyStrings.upper l =? PyStrings.upper b)%string; [reflexivity |].
  rewrite (IH a b s3 Hupper). reflexivity.
Qed.

Lemma partial_match_upper :
  forall (items : dict) (a b : string) (s : state),
    PyStrings.upper a = PyStrings.upper b ->
    partial_match a items s = partial_match b items s.
Proof.
  induction items as [| [k seat_data] rest IH]; intros a b s Hupper;
    [reflexivity |].
  cbn [partial_match]. unfold bind.
  destruct (lift (Py.get seat_data "screenLine" (PyStr EmptyString)) s)
    as [[[v | e] s1] ev1]; [| reflexivity].
  destruct (lift (Py.strip v) s1) as [[[l | e] s2] ev2]; [| reflexivity].
  rewrite Hupper.
  destruct (_ || _); [reflexivity |].
  rewrite (IH a b s2 Hupper). reflexivity.
Qed.

(** X6.  The lookup depends on the query only up to surrounding whitespace
    and letter case: two queries that are equal up to those give the same
    result, and neither changes the state. *)
Theorem lookup_ignores_case_and_padding_of_the_query :
  forall (s : state) (query query' : string),
    normalize query = normalize query' ->
    outcome (get_seat_info_by_screen_line (PyStr query) s)
    = outcome (get_seat_info_by_screen_line (PyStr query') s)
    /\ final (get_seat_info_by_screen_line (PyStr query) s) = s
    /\ final (get_seat_info_by_screen_line (PyStr query') s) = s.
Proof.
  intros s query query' Heq. unfold normalize in Heq.
  destruct (get_seat_info_by_screen_line_reads (PyStr query) s) as (r & ev & Hr).
  destruct (get_seat_info_by_screen_line_reads (PyStr query') s) as (r' & ev' & Hr').
  rewrite Hr, Hr'. cbn. split; [| split; reflexivity].
  revert Hr Hr'. unfold get_seat_info_by_screen_line. run.
  rewrite (exact_match_upper (seat_info s) _ _ s Heq).
  destruct (exact_match (PyStrings.strip query') (seat_info s) s)
    as [[[[e |] | x] s1] ev1]; cbn.
  - intros H1 H2. congruence.
  - rewrite (partial_match_upper (seat_info s) _ _ s1 Heq).
    destruct (partial_match (PyStrings.strip query') (seat_info s) s1)
      as [[[[e |] | x] s2] ev2]; cbn; intros H1 H2; congruence.
  - intros H1 H2. congruence.
Qed.

Lemma lookup_ignores_case_and_padding_of_the_query_witness :
  let s := with_seats [seat_record "Seat 3" "MALTA" EmptyString] [] in
  outcome (get_seat_info_by_screen_line (PyStr "  Malta") s)
  = outcome (get_seat_info_by_screen_line (PyStr "malta ") s).
Proof.
  intro s.
  apply (lookup_ignores_case_and_padding_of_the_query s "  Malta" "malta " eq_refl).
Defined.

Lemma handlers_without_seat :
  forall (s : state) (address : string) (args : list pyval),
    (forall seat,
        outcome (get_seat_info_by_screen_line (first_arg args) s) = Ok seat ->
        Py.truthy seat = false) ->
    final (handle_mic_activate_wrapper address args s) = s
    /\ final (handle_mic_deactivate_wrapper address args s) = s
    /\ final (handle_mic_control address args s) = s.
Proof.
  intros s address args Hnone.
  destruct (get_seat_info_by_screen_line_reads (first_arg args) s)
    as (r & evl & Hl).
  rewrite Hl in Hnone. cbn in Hnone.
  unfold handle_mic_activate_wrapper, handle_mic_deactivate_wrapper,
    handle_mic_control.
  run.
  destruct (Py.truthy (first_arg args)); cbn; [| auto].
  rewrite Hl. destruct r as [seat | e]; cbn; [| auto].
  rewrite (Hnone seat eq_refl). cbn. auto.
Qed.

(** X7.  A command whose argument does not resolve to a seat is dropped:
    when the lookup raises (an argument that is not a string) or returns
    [None] (no seat with such a screen line), each handler returns with
    the whole state as it was, so no request is sent. *)
Theorem commands_for_an_unknown_screen_line_are_dropped :
  forall (s : state) (address : string) (args : list pyval),
    (forall seat,
        outcome (get_seat_info_by_screen_line (first_arg args) s) = Ok seat ->
        Py.truthy seat = false) ->
    final (handle_mic_activate_wrapper address args s) = s
    /\ final (handle_mic_deactivate_wrapper address args s) = s
    /\ final (handle_mic_control address args s) = s.
Proof.
  exact handlers_without_seat.
Qed.

Lemma commands_for_an_unknown_screen_line_are_dropped_witness :
  let s := malta "on" [Parsed ack] in
  final (handle_mic_control "/dicentis/mic/control" [PyInt 3] s) = s
  /\ final (handle_mic_activate_wrapper "/dicentis/mic/activate" [PyStr "ROME"] s) = s.
Proof.
  intro s. split.
  - apply (commands_for_an_unknown_screen_line_are_dropped s
             "/dicentis/mic/control" [PyInt 3]).
    intros seat Hseat. discriminate Hseat.
  - apply (commands_for_an_unknown_screen_line_are_dropped s
             "/dicentis/mic/activate" [PyStr "ROME"]).
    intros seat Hseat. vm_compute in Hseat. injection Hseat as <-. reflexivity.
Defined.

(** ** The directory as a mapping from seat numbers *)

Lemma key_eqb_int :
  forall a b : Z, Py.key_eqb (PyInt a) (PyInt b) = (a =? b).
Proof.
  intros a b. cbn. unfold Qeq_bool. cbn.
  rewrite !Z.mul_1_r. reflexivity.
Qed.



Lemma dict_set_keys :
  forall (directory : dict) (numbers : list Z) (n : Z) (v : pyval),
    map fst directory = map PyInt numbers ->
    (In n numbers
     /\ map fst (Py.dict_set directory (PyInt n) v) = map PyInt numbers)
    \/ (~ In n numbers
        /\ map fst (Py.dict_set directory (PyInt n) v) = map PyInt (numbers ++ [n])).
Proof.
  induction directory as [| [k' v'] rest IH]; intros numbers n v Hkeys.
  - destruct numbers; [| discriminate]. right. split; [intros [] | reflexivity].
  - destruct numbers as [| a numbers]; [discriminate |].
    cbn [map fst] in Hkeys. injection Hkeys as -> Hrest.
    cbn [Py.dict_set]. rewrite key_eqb_int.
    destruct (a =? n) eqn:Han.
    + apply Z.eqb_eq in Han. subst a. left. split; [left; reflexivity |].
      cbn [map fst]. now rewrite Hrest.
    + apply Z.eqb_neq in Han.
      destruct (IH numbers n v Hrest) as [[Hin Hk] | [Hnot Hk]].
      * left. split; [right; exact Hin |]. cbn [map fst]. now rewrite Hk.
      * right. split; [intros [Heq | Hin]; [congruence | contradiction] |].
        cbn [map fst app]. now rewrite Hk.
Qed.

Lemma dict_set_numbered :
  forall (directory : dict) (n : Z) (v : pyval),
    numbered directory -> 0 <= n ->
    numbered (Py.dict_set directory (PyInt n) v).
Proof.
  intros directory n v (numbers & Hkeys & Hnodup & Hpos) Hn.
  destruct (dict_set_keys directory numbers n v Hkeys) as [[Hin Hk] | [Hnot Hk]].
  - exists numbers. auto.
  - exists (numbers ++ [n]). split; [exact Hk |]. split.
    + apply NoDup_app; [exact Hnodup | repeat constructor; intros [] |].
      intros a Ha [<- | []]. contradiction.
    + apply Forall_app. split; [exact Hpos | repeat constructor; exact Hn].
Qed.

Lemma int_loop_nonneg :
  forall (numeral : string) (acc n : Z),
    0 <= acc -> PyStrings.int_loop acc numeral = Some n -> 0 <= n.
Proof.
  induction numeral as [| c rest IH]; intros acc n Hacc Hrun.
  - cbn in Hrun. congruence.
  - cbn [PyStrings.int_loop] in Hrun.
    destruct (PyStrings.isdigit c) eqn:Hc; [| discriminate].
    unfold PyStrings.isdigit in Hc. apply andb_true_iff in Hc as [Hlo _].
    apply Nat.leb_le in Hlo.
    apply (IH (acc * 10 + PyStrings.digit_of c) n); [| exact Hrun].
    unfold PyStrings.digit_of.
    assert (48 <= Z.of_nat (nat_of_ascii c)) by (apply (Nat2Z.inj_le 48); exact Hlo).
    lia.
Qed.

Lemma seat_number_of_nonneg :
  forall (seat_name : pyval) (n : Z), seat_number_of seat_name = Ok n -> 0 <= n.
Proof.
  intros seat_name n. unfold seat_number_of.
  destruct (Py.iter seat_name) as [items |]; [| discriminate].
  destruct (filter_isdigit items) as [kept |]; [| discriminate].
  unfold PyStrings.py_int.
  destruct (PyStrings.join kept) as [| c rest] eqn:Hj; [discriminate |].
  destruct (PyStrings.int_loop 0 (String c rest)) as [z |] eqn:Hz; [| discriminate].
  intro Heq. injection Heq as <-.
  eapply int_loop_nonneg; [| exact Hz]. lia.
Qed.

Lemma dict_set_length :
  forall (directory : dict) (k v : pyval),
    (List.length (Py.dict_set directory k v) <= S (List.length directory))%nat.
Proof.
  induction directory as [| [k' v'] rest IH]; intros k v; cbn [Py.dict_set].
  - cbn. lia.
  - destruct (Py.key_eqb k' k); cbn [List.length]; [lia |].
    specialize (IH k v). lia.
Qed.

(** What one pass of the loop of [process_seats_info] does to the state:
    it may store one entry under a non-negative number and file the
    details; nothing else changes. *)
Lemma process_seat_effect :
  forall (seat : pyval) (s : state),
    exists d1 d2,
      final (process_seat seat s) = set_seat_details d2 (set_seat_info d1 s)
      /\ (d1 = seat_info s
          \/ exists n name line,
               0 <= n
               /\ d1 = Py.dict_set (seat_info s) (PyInt n) (seat_entry name line)).
Proof.
  intros seat s. destruct s.
  assert (Hsame :
    exists d1 d2,
      mkState server_ip0 username0 password0 websocket0 seat_info0 seat_details0
        last_discussion_data0 server_up0 inbox0 sent0 osc_out0
      = set_seat_details d2 (set_seat_info d1
          (mkState server_ip0 username0 password0 websocket0 seat_info0
             seat_details0 last_discussion_data0 server_up0 inbox0 sent0 osc_out0))
      /\ (d1 = seat_info0
          \/ exists n name line,
               0 <= n /\ d1 = Py.dict_set seat_info0 (PyInt n) (seat_entry name line))).
  { exists seat_info0, seat_details0. split; [reflexivity | left; reflexivity]. }
  unfold process_seat. run.
  destruct (Py.get seat "seatName" (PyStr EmptyString)) as [seat_name |];
    cbn; [| exact Hsame].
  destruct (Py.get seat "screenLine" (PyStr EmptyString)) as [screen_line |];
    cbn; [| exact Hsame].
  destruct (Py.truthy seat_name); cbn; [| exact Hsame].
  destruct (Py.get seat "hideSeat" (PyBool false)) as [hide |];
    cbn; [| exact Hsame].
  destruct (Py.truthy hide); cbn; [exact Hsame |].
  destruct (seat_number_of seat_name) as [n | e] eqn:Hn; cbn;
    [| destruct e; cbn; exact Hsame].
  apply seat_number_of_nonneg in Hn.
  destruct (Py.get seat "seatId" (PyStr EmptyString)); cbn; [| exact Hsame].
  destruct (Py.get seat "seatedParticipantId" (PyStr EmptyString));
    cbn; [| exact Hsame].
  destruct (Py.hashable screen_line); cbn.
  - eexists; eexists. split; [reflexivity |].
    right. exists n, seat_name, screen_line. split; [exact Hn | reflexivity].
  - exists (Py.dict_set seat_info0 (PyInt n) (seat_entry seat_name screen_line)),
      seat_details0.
    split; [reflexivity |].
    right. exists n, seat_name, screen_line. split; [exact Hn | reflexivity].
Qed.

Lemma for_each_process_seat_effect :
  forall (items : list pyval) (s : state),
    exists d1 d2,
      final (for_each process_seat items s) = set_seat_details d2 (set_seat_info d1 s)
      /\ (numbered (seat_info s) -> numbered d1)
      /\ (List.length d1 <= List.length (seat_info s) + List.length items)%nat.
Proof.
  induction items as [| seat rest IH]; intros s.
  - exists (seat_info s), (seat_details s). destruct s. cbn.
    split; [reflexivity |]. split; [auto | lia].
  - destruct (process_seat_effect seat s) as (d1 & d2 & Hfinal & Hd1).
    assert (Hnum : numbered (seat_info s) -> numbered d1).
    { intro Hs. destruct Hd1 as [-> | (n & name & line & Hn & ->)];
        [exact Hs | now apply dict_set_numbered]. }
    assert (Hlen : (List.length d1 <= S (List.length (seat_info s)))%nat).
    { destruct Hd1 as [-> | (n & name & line & Hn & ->)];
        [lia | apply dict_set_length]. }
    cbn [for_each]. unfold bind.
    destruct (process_seat seat s) as [[[[] | e] s1] ev1]; cbn in Hfinal; subst s1.
    + destruct (IH (set_seat_details d2 (set_seat_info d1 s)))
        as (d1' & d2' & Hfinal' & Hnum' & Hlen').
      destruct (for_each process_seat rest _) as [[r s2] ev2].
      cbn in Hfinal'. subst s2. cbn [final fst snd].
      exists d1', d2'. destruct s; cbn in *.
      split; [reflexivity |]. split; [auto | lia].
    + exists d1, d2. cbn [final fst snd].
      split; [reflexivity |]. split; [exact Hnum |]. cbn [List.length]. lia.
Qed.

(** What [process_seats_info] does to the state, whatever the response:
    it replaces the two mappings of the directory, and nothing else. *)
Lemma process_seats_info_effect :
  forall (seats_data : pyval) (s : state),
    exists d1 d2,
      final (process_seats_info seats_data s)
      = set_seat_details d2 (set_seat_info d1 s)
      /\ (outcome (process_seats_info seats_data s) = Ok tt -> numbered d1)
      /\ (forall parameters seats items,
             outcome (process_seats_info seats_data s) = Ok tt ->
             Py.get seats_data "parameters" (PyDict []) = Ok parameters ->
             Py.get parameters "seats" (PyList []) = Ok seats ->
             Py.iter seats = Ok items ->
             (List.length d1 <= List.length items)%nat).
Proof.
  intros seats_data s.
  unfold process_seats_info. run.
  destruct (Py.get seats_data "parameters" (PyDict [])) as [parameters |];
    cbn;
    [| exists (seat_info s), (seat_details s); destruct s; cbn;
       split; [reflexivity | split; discriminate]].
  destruct (Py.get parameters "seats" (PyList [])) as [seats |] eqn:Hseats;
    cbn;
    [| exists (seat_info s), (seat_details s); destruct s; cbn;
       split; [reflexivity | split; discriminate]].
  destruct (Py.iter seats) as [items |] eqn:Hiter; cbn.
  - destruct (for_each_process_seat_effect items
                (set_seat_details [] (set_seat_info [] s)))
      as (d1 & d2 & Hfinal & Hnum & Hlen).
    destruct (for_each process_seat items _) as [[[[] | e] s1] ev1];
      cbn in Hfinal; subst s1; cbn.
    + exists d1, d2. destruct s; cbn in *.
      split; [reflexivity |]. split.
      * intros _. apply Hnum. exists []. repeat constructor.
      * intros p' seats' items' _ Hp Hs Hi.
        injection Hp as <-. rewrite Hseats in Hs. injection Hs as <-.
        rewrite Hiter in Hi. injection Hi as <-. exact Hlen.
    + exists d1, d2. destruct s; cbn in *.
      split; [reflexivity |]. split; discriminate.
  - exists [], []. destruct s; cbn.
    split; [reflexivity |]. split; discriminate.
Qed.

(** X8.  Whatever the response handed to it, [process_seats_info]
    changes nothing but the two mappings of the seat directory: the
    connection, the frames sent and pending, the cached discussion data,
    the published OSC messages and the configuration stay as they were. *)
Theorem process_seats_info_touches_only_the_directory :
  forall (seats_data : pyval) (s : state),
    let s' := final (process_seats_info seats_data s) in
    websocket s' = websocket s
    /\ sent s' = sent s
    /\ inbox s' = inbox s
    /\ osc_out s' = osc_out s
    /\ last_discussion_data s' = last_discussion_data s
    /\ (server_ip s', username s', password s') = (server_ip s, username s, password s).
Proof.
  intros seats_data s s'.
  destruct (process_seats_info_effect seats_data s) as (d1 & d2 & Hfinal & _).
  subst s'. rewrite Hfinal. destruct s. cbn. repeat split.
Qed.

(** X9.  A directory that [process_seats_info] has built to the end is
    keyed by seat numbers that are non-negative integers and pairwise
    distinct, whatever seats the server listed and whatever the directory
    held before. *)
Theorem directory_is_keyed_by_distinct_seat_numbers :
  forall (seats_data : pyval) (s : state),
    outcome (process_seats_info seats_data s) = Ok tt ->
    exists numbers : list Z,
      map fst (seat_info (final (process_seats_info seats_data s)))
      = map PyInt numbers
      /\ NoDup numbers
      /\ Forall (fun n => 0 <= n) numbers.
Proof.
  intros seats_data s Hok.
  destruct (process_seats_info_effect seats_data s) as (d1 & d2 & Hfinal & Hnum & _).
  rewrite Hfinal. destruct s. cbn. exact (Hnum Hok).
Qed.

Lemma directory_is_keyed_by_distinct_seat_numbers_witness :
  let seats := [seat_record "Seat 12" "ROME" EmptyString;
                seat_record "Row 1 Seat 2" "PARIS" EmptyString;
                seat_record "Seat 3" "MALTA" EmptyString] in
  exists numbers : list Z,
    map fst (seat_info (with_seats seats [])) = map PyInt numbers
    /\ NoDup numbers
    /\ Forall (fun n => 0 <= n) numbers.
Proof.
  intro seats.
  exact (directory_is_keyed_by_distinct_seat_numbers (seats_response seats)
           (connected []) eq_refl).
Defined.

(** X10.  The directory never has more entries than the response listed
    seat records. *)
Theorem directory_has_at_most_one_entry_per_record :
  forall (seats_data parameters seats : pyval) (items : list pyval) (s : state),
    outcome (process_seats_info seats_data s) = Ok tt ->
    Py.get seats_data "parameters" (PyDict []) = Ok parameters ->
    Py.get parameters "seats" (PyList []) = Ok seats ->
    Py.iter seats = Ok items ->
    (List.length (seat_info (final (process_seats_info seats_data s)))
     <= List.length items)%nat.
Proof.
  intros seats_data parameters seats items s Hok Hp Hs Hi.
  destruct (process_seats_info_effect seats_data s) as (d1 & d2 & Hfinal & _ & Hlen).
  rewrite Hfinal. destruct s. cbn. exact (Hlen parameters seats items Hok Hp Hs Hi).
Qed.

Lemma directory_has_at_most_one_entry_per_record_witness :
  let seats := [seat_record "Seat 12" "ROME" EmptyString;
                seat_record "Seat 1, row 2" "PARIS" EmptyString;
                seat_record "Chair" "CHAIR" EmptyString] in
  (List.length (seat_info (with_seats seats [])) <= 3)%nat.
Proof.
  intro seats.
  exact (directory_has_at_most_one_entry_per_record (seats_response seats)
           _ _ seats (connected []) eq_refl eq_refl eq_refl eq_refl).
Defined.




(** ** Failures of the connect sequence *)







Lemma get_seats_info_traffic :
  forall (s : state) (uri : string) (p : payload) (rest : list payload),
    websocket s = Some uri ->
    inbox s = p :: rest ->
    final (get_seats_info s) = after_exchange (request "getseats") s.
Proof.
  intros s uri p rest Hws Hin.
  destruct s; cbn in Hws, Hin; subst.
  unfold get_seats_info, after_exchange. run.
  destruct p as [text | v]; cbn; [reflexivity |].
  crunch; reflexivity.
Qed.


Lemma connect_after_login :
  forall (s : state) (l op : pyval) (rest : list payload),
    server_up s = true ->
    inbox s = Parsed l :: rest ->
    Py.get l "operation" PyNone = Ok op ->
    Py.eq_str op "error" = false ->
    exists ev,
      forall r s' ev',
        retrieve_seat_info (after_login s) = (r, s', ev') ->
        connect s = (r, s', ev ++ ev').
Proof.
  intros s l op rest Hup Hin Hl Hop.
  pose proof (login_accepted (set_websocket (Some (uri_of s)) s) (uri_of s)
                l op rest eq_refl Hin Hl Hop) as Hlogin.
  exists [Log INFO "Login Response: {response}" [F (Parsed l)]].
  intros r s' ev' Hrun.
  assert (Hstate :
    set_inbox rest
      (set_sent (sent (set_websocket (Some (uri_of s)) s)
                 ++ [login_request (username (set_websocket (Some (uri_of s)) s))
                       (password (set_websocket (Some (uri_of s)) s))])
         (set_websocket (Some (uri_of s)) s))
    = after_login s).
  { unfold after_login, after_exchange. destruct s; cbn in Hin |- *.
    subst inbox0. reflexivity. }
  rewrite Hstate in Hlogin.
  unfold connect. cbv [bind get_state websockets_connect modify].
  rewrite Hup. fold (uri_of s). rewrite Hlogin, Hrun. reflexivity.
Qed.



(** X15.  Once the login is accepted, [connect] performs exactly two
    exchanges whatever the server answers to [getseats] and whether or not
    the seat list can be processed: the frames sent are the login request
    followed by the [getseats] request, and exactly the two answers are
    taken. *)
Theorem connect_sends_login_then_getseats :
  forall (s : state) (l op : pyval) (answer : payload) (rest : list payload),
    server_up s = true ->
    inbox s = Parsed l :: answer :: rest ->
    Py.get l "operation" PyNone = Ok op ->
    Py.eq_str op "error" = false ->
    sent (final (connect s))
    = sent s ++ [login_request (username s) (password s); request "getseats"]
    /\ inbox (final (connect s)) = rest
    /\ websocket (final (connect s)) = Some (uri_of s)
    /\ osc_out (final (connect s)) = osc_out s.
Proof.
  intros s l op answer rest Hup Hin Hl Hop.
  destruct (connect_after_login s l op (answer :: rest) Hup Hin Hl Hop)
    as [ev Hconnect].
  assert (Hinbox : inbox (after_login s) = answer :: rest)
    by (unfold after_login, after_exchange; destruct s; cbn in Hin |- *;
        subst inbox0; reflexivity).
  pose proof (get_seats_info_traffic (after_login s) (uri_of s) answer rest
                eq_refl Hinbox) as Hget.
  destruct (retrieve_seat_info (after_login s)) as [[r s'] ev'] eqn:Hretrieve.
  rewrite (Hconnect r s' ev' eq_refl). cbn [final fst snd].
  assert (Hs' :
    exists d1 d2,
      s' = set_seat_details d2 (set_seat_info d1
             (after_exchange (request "getseats") (after_login s)))).
  { revert Hretrieve. unfold retrieve_seat_info, bind.
    destruct (get_seats_info (after_login s)) as [[[v | e] s1] ev1];
      cbn in Hget; subst s1.
    - destruct (process_seats_info_effect v
                  (after_exchange (request "getseats") (after_login s)))
        as (d1 & d2 & Hfinal & _).
      destruct (process_seats_info v _) as [[r2 s2] ev2]. cbn in Hfinal.
      intro Heq. injection Heq as _ <- _. exists d1, d2. exact Hfinal.
    - intro Heq. injection Heq as _ <- _.
      exists (seat_info s), (seat_details s).
      unfold after_login, after_exchange. destruct s. reflexivity. }
  destruct Hs' as (d1 & d2 & ->).
  unfold after_login, after_exchange. destruct s; cbn in Hin |- *. subst inbox0.
  cbn. repeat split. now rewrite <- app_assoc.
Qed.

Lemma connect_sends_login_then_getseats_witness :
  let s := init "10.0.0.5" (PyStr "admin") (PyStr "secret") [] true
             [Parsed login_ok; Parsed (PyList [PyInt 1]); Parsed ack] in
  sent (final (connect s))
  = [login_request (PyStr "admin") (PyStr "secret"); request "getseats"]
  /\ inbox (final (connect s)) = [Parsed ack].
Proof.
  intro s.
  destruct (connect_sends_login_then_getseats s login_ok (PyStr "login")
              (Parsed (PyList [PyInt 1])) [Parsed ack]
              eq_refl eq_refl eq_refl eq_refl) as (Hsent & Hinbox & _).
  split; [exact Hsent | exact Hinbox].
Defined.

Lemma get_seats_info_answer :
  forall (s : state) (uri : string) (r op : pyval) (rest : list payload),
    websocket s = Some uri ->
    inbox s = Parsed r :: rest ->
    Py.get r "operation" PyNone = Ok op ->
    Py.eq_str op "error" = false ->
    get_seats_info s =
      (Ok r, after_exchange (request "getseats") s,
       [Log INFO "Raw Seats Response:" [];
        Log INFO "{response}" [F (Parsed r)];
        Log INFO "Parsed Seats Response:" [];
        Log INFO "{json.dumps(seats_data, indent=2)}" [V r]]).
Proof.
  intros s uri r op rest Hws Hin Hr Hop.
  destruct r as [| | | | | | rd]; try discriminate.
  destruct s; cbn in Hws, Hin; subst.
  cbn [Py.get] in Hr. injection Hr as Hr.
  unfold get_seats_info, after_exchange. run. rewrite Hr, Hop. reflexivity.
Qed.

(** X16.  A [getseats] answer whose seat list cannot be iterated (a
    [null], a number or a boolean in place of the list) makes [connect]
    raise the [TypeError] of the iteration, after both mappings of the
    directory have been emptied. *)
Theorem seat_list_that_is_no_list_fails_the_connect_sequence :
  forall (s : state) (l op r op' seats : pyval) (p : dict) (e : exn)
         (rest : list payload),
    server_up s = true ->
    inbox s = Parsed l :: Parsed r :: rest ->
    Py.get l "operation" PyNone = Ok op ->
    Py.eq_str op "error" = false ->
    Py.get r "operation" PyNone = Ok op' ->
    Py.eq_str op' "error" = false ->
    Py.get r "parameters" (PyDict []) = Ok (PyDict p) ->
    Py.dict_get p (PyStr "seats") = Some seats ->
    Py.iter seats = Raise e ->
    outcome (connect s) = Raise e
    /\ e = TypeError
    /\ seat_info (final (connect s)) = []
    /\ seat_details (final (connect s)) = [].
Proof.
  intros s l op r op' seats p e rest Hup Hin Hl Hop Hr Hop' Hp Hseats Hiter.
  destruct (connect_after_login s l op (Parsed r :: rest) Hup Hin Hl Hop)
    as [ev Hconnect].
  assert (Hinbox : inbox (after_login s) = Parsed r :: rest)
    by (unfold after_login, after_exchange; destruct s; cbn in Hin |- *;
        subst inbox0; reflexivity).
  pose proof (get_seats_info_answer (after_login s) (uri_of s) r op' rest
                eq_refl Hinbox Hr Hop') as Hget.
  assert (Hretrieve :
    exists ev',
      retrieve_seat_info (after_login s) =
        (Raise e,
         set_seat_details [] (set_seat_info []
           (after_exchange (request "getseats") (after_login s))),
         ev')).
  { unfold retrieve_seat_info. unfold bind at 1. rewrite Hget.
    unfold process_seats_info. unfold bind at 1. rewrite Hp. cbn [lift].
    run. rewrite Hseats. cbn. rewrite Hiter. cbn. eexists; reflexivity. }
  destruct Hretrieve as [ev' Hretrieve].
  rewrite (Hconnect _ _ _ Hretrieve). cbn [outcome final fst snd].
  repeat split.
  destruct seats; cbn in Hiter; congruence.
Qed.

Lemma seat_list_that_is_no_list_fails_the_connect_sequence_witness :
  let answer := PyDict [(PyStr "operation", PyStr "getseats");
                        (PyStr "parameters", PyDict [(PyStr "seats", PyNone)])] in
  let s := init "10.0.0.5" (PyStr "admin") (PyStr "secret")
             [(PyStr "1", seat_entry (PyStr "Seat 1") (PyStr "ROME"))] true
             [Parsed login_ok; Parsed answer] in
  outcome (connect s) = Raise TypeError /\ seat_info (final (connect s)) = [].
Proof.
  intros answer s.
  destruct (seat_list_that_is_no_list_fails_the_connect_sequence s login_ok
              (PyStr "login") answer (PyStr "getseats") PyNone
              [(PyStr "seats", PyNone)] TypeError []
              eq_refl eq_refl eq_refl eq_refl eq_refl eq_refl eq_refl eq_refl eq_refl)
    as (Hout & _ & Hinfo & _).
  split; [exact Hout | exact Hinfo].
Defined.

(** ** What a poll tick can do to the bridge *)

Lemma get_discussion_list_effect :
  forall s : state,
    (final (get_discussion_list s) = s
     /\ exists e, outcome (get_discussion_list s) = Raise e)
    \/ final (get_discussion_list s)
       = after_exchange (request "GetDiscussionList") s.
Proof.
  intro s. destruct s. unfold get_discussion_list, after_exchange. run.
  destruct websocket0 as [uri |];
    [| left; split; [reflexivity | eexists; reflexivity]].
  cbn. destruct inbox0 as [| p rest]; cbn; [right; reflexivity |].
  destruct p as [text | v]; cbn; [right; reflexivity |].
  crunch; right; reflexivity.
Qed.

Lemma collect_active_reads :
  forall (items acc : list pyval) (s : state),
    exists r ev, collect_active items acc s = (r, s, ev).
Proof.
  induction items as [| discussion rest IH]; intros acc s.
  - do 2 eexists; reflexivity.
  - cbn [collect_active]. run.
    destruct (Py.get discussion "microphoneState" (PyStr "off")) as [m |]; cbn;
      [| do 2 eexists; reflexivity].
    destruct (Py.get discussion "screenLine" (PyStr "Unknown")) as [l |]; cbn;
      [| do 2 eexists; reflexivity].
    destruct (IH (if Py.eq_str m "on" then acc ++ [l] else acc) s)
      as (r & ev & Hr).
    rewrite Hr. do 2 eexists; reflexivity.
Qed.

(** The state a tick leaves: either nothing happened, or one exchange took
    place, the cached discussion data was possibly replaced, and at most
    one message was published. *)
Lemma poll_tick_effect :
  forall s : state,
    final (poll_tick s) = s
    \/ exists (cached : pyval) (publication : list (osc_address * pyval)),
         (publication = [] \/ exists value, publication = [(MicOnValue, value)])
         /\ final (poll_tick s)
            = set_osc_out (osc_out s ++ publication)
                (set_last_discussion_data cached
                   (after_exchange (request "GetDiscussionList") s)).
Proof.
  intro s.
  assert (Hquiet :
    forall cached : pyval,
      exists (cached' : pyval) (publication : list (osc_address * pyval)),
        (publication = [] \/ exists value, publication = [(MicOnValue, value)])
        /\ set_last_discussion_data cached
             (after_exchange (request "GetDiscussionList") s)
           = set_osc_out (osc_out s ++ publication)
               (set_last_discussion_data cached'
                  (after_exchange (request "GetDiscussionList") s))).
  { intro cached. exists cached, [].
    split; [left; reflexivity |].
    rewrite app_nil_r. destruct s; reflexivity. }
  pose proof (get_discussion_list_effect s) as Hget.
  unfold poll_tick, bind.
  destruct (get_discussion_list s) as [[[d | e] s1] ev1]; cbn in Hget.
  - destruct Hget as [[_ [e He]] | ->]; [discriminate |].
    right. run.
    destruct (Py.get d "parameters" (PyDict [])) as [parameters |]; cbn;
      [| apply Hquiet].
    destruct (Py.get parameters "discussionList" (PyList [])) as [dl |]; cbn;
      [| apply Hquiet].
    destruct (Py.iter dl) as [items |]; cbn; [| apply Hquiet].
    destruct (collect_active_reads items []
                (set_last_discussion_data d
                   (after_exchange (request "GetDiscussionList") s)))
      as (r & ev & Hr).
    rewrite Hr. destruct r as [[| value others] | e]; cbn;
      try (apply Hquiet).
    exists d, [(MicOnValue, value)].
    split; [right; eexists; reflexivity |].
    destruct s; reflexivity.
  - cbn. destruct Hget as [[-> _] | ->]; [left; reflexivity |].
    right. exists (last_discussion_data s), [].
    split; [left; reflexivity |].
    rewrite app_nil_r. destruct s; reflexivity.
Qed.

(** X17.  Whatever the state and whatever the server answers, a poll tick
    sends at most one request (a [GetDiscussionList]), publishes at most
    one OSC message, and that to [/custom-variable/mic_on/value]; it never
    touches the seat directory or the connection handle. *)
Theorem poll_tick_publishes_at_most_one_message :
  forall s : state,
    let s' := final (poll_tick s) in
    seat_info s' = seat_info s
    /\ seat_details s' = seat_details s
    /\ websocket s' = websocket s
    /\ (sent s' = sent s \/ sent s' = sent s ++ [request "GetDiscussionList"])
    /\ (osc_out s' = osc_out s
        \/ exists value, osc_out s' = osc_out s ++ [(MicOnValue, value)]).
Proof.
  intros s s'. subst s'.
  destruct (poll_tick_effect s)
    as [-> | (cached & publication & Hpub & ->)].
  - repeat split; auto.
  - destruct s; cbn. repeat split; auto.
    destruct Hpub as [-> | [value ->]].
    + left. now rewrite app_nil_r.
    + right. exists value. reflexivity.
Qed.

Lemma poll_loop_effect :
  forall (n : nat) (s : state),
    exists (k : nat) (cached : pyval) (publications : list (osc_address * pyval)),
      (k <= n)%nat
      /\ (List.length publications <= k)%nat
      /\ Forall (fun message => fst message = MicOnValue) publications
      /\ final (poll_loop n s)
         = set_osc_out (osc_out s ++ publications)
             (set_last_discussion_data cached
                (set_inbox (frames_after k (inbox s))
                   (set_sent (sent s ++ repeat (request "GetDiscussionList") k) s))).
Proof.
  induction n as [| n IH]; intros s.
  - exists O, (last_discussion_data s), [].
    split; [lia |]. split; [cbn; lia |]. split; [constructor |].
    cbn. rewrite !app_nil_r. destruct s; reflexivity.
  - cbn [poll_loop]. unfold bind.
    pose proof (poll_tick_effect s) as Htick.
    destruct (poll_tick s) as [[[[] | e] s1] ev1]; cbn in Htick.
    + destruct (IH s1) as (k & cached & pubs & Hk & Hlen & Hmic & Hfinal).
      destruct (poll_loop n s1) as [[r s2] ev2]. cbn in Hfinal. subst s2.
      cbn [final fst snd].
      destruct Htick as [-> | (cached1 & pub1 & Hpub1 & ->)].
      * exists k, cached, pubs. split; [lia |]. auto.
      * exists (S k), cached, (pub1 ++ pubs).
        split; [lia |]. split.
        { rewrite length_app.
          destruct Hpub1 as [-> | [value ->]]; cbn; lia. }
        split.
        { apply Forall_app. split; [| exact Hmic].
          destruct Hpub1 as [-> | [value ->]]; repeat constructor. }
        destruct s; unfold after_exchange; cbn.
        rewrite <- !app_assoc. reflexivity.
    + cbn [final fst snd].
      destruct Htick as [-> | (cached1 & pub1 & Hpub1 & ->)].
      * exists O, (last_discussion_data s), [].
        split; [lia |]. split; [cbn; lia |]. split; [constructor |].
        cbn. rewrite !app_nil_r. destruct s; reflexivity.
      * exists 1%nat, cached1, pub1.
        split; [lia |]. split.
        { destruct Hpub1 as [-> | [value ->]]; cbn; lia. }
        split.
        { destruct Hpub1 as [-> | [value ->]]; repeat constructor. }
        destruct s; reflexivity.
Qed.

(** X18.  Over any number [n] of iterations of the polling loop, and
    whatever the server answers: at most [n] requests are sent, all of
    them [GetDiscussionList]; at most one OSC message is published per
    request, all of them to [/custom-variable/mic_on/value]; the seat
    directory and the connection handle are never touched. *)
Theorem polling_sends_only_discussion_requests_and_publishes_at_most_one_each :
  forall (n : nat) (s : state),
    let s' := final (poll_loop n s) in
    exists (k : nat) (publications : list (osc_address * pyval)),
      (k <= n)%nat
      /\ sent s' = sent s ++ repeat (request "GetDiscussionList") k
      /\ inbox s' = frames_after k (inbox s)
      /\ osc_out s' = osc_out s ++ publications
      /\ (List.length publications <= k)%nat
      /\ Forall (fun message => fst message = MicOnValue) publications
      /\ seat_info s' = seat_info s
      /\ seat_details s' = seat_details s
      /\ websocket s' = websocket s.
Proof.
  intros n s s'. subst s'.
  destruct (poll_loop_effect n s) as (k & cached & pubs & Hk & Hlen & Hmic & ->).
  exists k, pubs. destruct s; cbn. repeat split; auto.
Qed.

(** X19.  Only an answer that does not parse is replaced by the empty
    discussion list.  An answer that parses to something other than an
    object (an array, a string, a number, [null]) makes the tick raise
    [AttributeError] once the exchange is done: the cached discussion data
    is not replaced and nothing is published. *)
Theorem poll_tick_raises_on_an_answer_that_is_no_object :
  forall (s : state) (uri : string) (answer : pyval) (rest : list payload),
    websocket s = Some uri ->
    inbox s = Parsed answer :: rest ->
    is_dict answer = false ->
    outcome (poll_tick s) = Raise AttributeError
    /\ final (poll_tick s) = after_exchange (request "GetDiscussionList") s
    /\ last_discussion_data (final (poll_tick s)) = last_discussion_data s
    /\ osc_out (final (poll_tick s)) = osc_out s.
Proof.
  intros s uri answer rest Hws Hin Hno.
  destruct s; cbn in Hws, Hin; subst.
  destruct answer; try discriminate; repeat split.
Qed.

Lemma poll_tick_raises_on_an_answer_that_is_no_object_witness :
  let s := connected [Parsed (PyList [entry "MALTA" "on"])] in
  outcome (poll_tick s) = Raise AttributeError /\ osc_out (final (poll_tick s)) = [].
Proof.
  intro s.
  destruct (poll_tick_raises_on_an_answer_that_is_no_object s
              "wss://10.0.0.5:31416/Dicentis/API" (PyList [entry "MALTA" "on"]) []
              eq_refl eq_refl eq_refl) as (Hout & _ & _ & Hosc).
  split; [exact Hout | exact Hosc].
Defined.

(** X20.  A toggle acts on what the last tick cached: after a tick that
    received a discussion snapshot, the microphone state read for a screen
    line is the state of the first entry of that snapshot with exactly that
    screen line, and off when the snapshot has none. *)
Theorem toggle_reads_the_snapshot_of_the_last_tick :
  forall (s : state) (uri : string) (d : pyval) (rest : list payload)
         (parameters : pyval) (snapshot : list pyval) (line : string),
    websocket s = Some uri ->
    inbox s = Parsed d :: rest ->
    Py.get d "parameters" (PyDict []) = Ok parameters ->
    Py.get parameters "discussionList" (PyList []) = Ok (PyList snapshot) ->
    Forall (fun entry => is_dict entry = true) snapshot ->
    outcome (get_current_mic_state line (final (poll_tick s)))
    = Ok (mic_state_in snapshot line).
Proof.
  intros s uri d rest parameters snapshot line Hws Hin Hp Hl Hall.
  destruct (poll_tick_snapshot s uri d rest parameters snapshot Hws Hin Hp Hl Hall)
    as [ev Hev].
  rewrite Hev. cbn [final fst snd].
  apply (get_current_mic_state_snapshot line _ parameters snapshot); auto.
  unfold after_tick. destruct (active_screen_lines snapshot); destruct s; exact Hp.
Qed.

Lemma toggle_reads_the_snapshot_of_the_last_tick_witness :
  let s := connected [Parsed (discussion_response
                                [entry "ROME" "off"; entry "MALTA" "on"])] in
  outcome (get_current_mic_state "MALTA" (final (poll_tick s))) = Ok (PyStr "on")
  /\ outcome (get_current_mic_state "malta" (final (poll_tick s))) = Ok (PyStr "off").
Proof.
  intro s. split.
  - refine (toggle_reads_the_snapshot_of_the_last_tick s _ _ [] _
              [entry "ROME" "off"; entry "MALTA" "on"] "MALTA"
              eq_refl eq_refl eq_refl eq_refl _).
    repeat constructor.
  - refine (toggle_reads_the_snapshot_of_the_last_tick s _ _ [] _
              [entry "ROME" "off"; entry "MALTA" "on"] "malta"
              eq_refl eq_refl eq_refl eq_refl _).
    repeat constructor.
Defined.

(** ** One microphone exchange *)

(** X21.  On an open connection a microphone command for seat data with
    a seat identifier (participant identity, else seat name) sends exactly
    one request carrying it and takes the server's next frame, and it
    returns normally whatever that frame is: an acknowledgement, an
    error-tagged answer, an answer that does not parse or is no object, or
    no answer at all.  Seat data without a seat identifier sends nothing. *)
Theorem microphone_command_is_one_exchange_and_never_raises :
  forall (s : state) (uri : string) (d : dict),
    websocket s = Some uri ->
    (outcome (activate_microphone (PyDict d) s) = Ok tt
     /\ final (activate_microphone (PyDict d) s)
        = if Py.truthy (seat_id_of d)
          then after_exchange (mic_request "ActivateMicrophone" (seat_id_of d)) s
          else s)
    /\ (outcome (deactivate_microphone (PyDict d) s) = Ok tt
        /\ final (deactivate_microphone (PyDict d) s)
           = if Py.truthy (seat_id_of d)
             then after_exchange (mic_request "DeactivateMicrophone" (seat_id_of d)) s
             else s).
Proof.
  intros s uri d Hws.
  destruct s; cbn in Hws; subst.
  unfold activate_microphone, deactivate_microphone, after_exchange,
    seat_id_of, Py.por.
  run.
  destruct (Py.truthy match Py.dict_get d (PyStr "participantId") with
                      | Some v => v
                      | None => PyNone
                      end) eqn:Hparticipant; cbn.
  - rewrite Hparticipant. cbn.
    split; crunch; split; reflexivity.
  - destruct (Py.truthy match Py.dict_get d (PyStr "seatName") with
                        | Some v => v
                        | None => PyNone
                        end) eqn:Hname; cbn.
    + split; crunch; split; reflexivity.
    + split; split; reflexivity.
Qed.

Lemma microphone_command_is_one_exchange_and_never_raises_witness :
  let seat := [(PyStr "seatName", PyStr "Seat 3"); (PyStr "screenLine", PyStr "MALTA")] in
  let refusal := error_response (PyDict [(PyStr "message", PyStr "Seat is disabled")]) in
  let s := connected [Parsed refusal; Parsed ack] in
  outcome (activate_microphone (PyDict seat) s) = Ok tt
  /\ sent (final (activate_microphone (PyDict seat) s))
     = [mic_request "ActivateMicrophone" (PyStr "Seat 3")]
  /\ inbox (final (activate_microphone (PyDict seat) s)) = [Parsed ack].
Proof.
  intros seat refusal s.
  destruct (microphone_command_is_one_exchange_and_never_raises s
              "wss://10.0.0.5:31416/Dicentis/API" seat eq_refl)
    as [[Hok Hfinal] _].
  rewrite Hfinal. split; [exact Hok |]. split; reflexivity.
Defined.

(** ** Announcing the seats *)




(** ** The main loop and a failed connect *)

Lemma get_seats_info_osc :
  forall s : state, osc_out (final (get_seats_info s)) = osc_out s.
Proof.
  intro s. destruct s. unfold get_seats_info. run.
  destruct websocket0 as [uri |]; [| reflexivity].
  cbn. destruct inbox0 as [| p rest]; cbn; [reflexivity |].
  destruct p as [text | v]; cbn; [reflexivity |].
  crunch; reflexivity.
Qed.


Lemma login_osc :
  forall s : state, osc_out (final (login s)) = osc_out s.
Proof.
  intro s. destruct s. unfold login. run.
  destruct websocket0 as [uri |]; [| reflexivity].
  cbn. destruct inbox0 as [| p rest]; cbn; [reflexivity |].
  destruct p as [text | v]; cbn; [reflexivity |].
  crunch; reflexivity.
Qed.

(** [connect] publishes nothing. *)
Lemma connect_osc :
  forall s : state, osc_out (final (connect s)) = osc_out s.
Proof.
  intro s. unfold connect. cbv [bind get_state websockets_connect modify].
  destruct (server_up s); [| reflexivity].
  pose proof (login_osc (set_websocket (Some (uri_of s)) s)) as Hlogin.
  fold (uri_of s).
  destruct (login (set_websocket (Some (uri_of s)) s)) as [[[[] | e1] s1] ev1];
    cbn in Hlogin.
  - unfold retrieve_seat_info, bind.
    pose proof (get_seats_info_osc s1) as Hget.
    destruct (get_seats_info s1) as [[[v | e2] s2] ev2]; cbn in Hget.
    + destruct (process_seats_info_effect v s2) as (d1 & d2 & Hfinal & _).
      destruct (process_seats_info v s2) as [[r3 s3] ev3]. cbn in Hfinal.
      subst s3. cbn. destruct s2, s; cbn in *. congruence.
    + cbn. destruct s; cbn in *. congruence.
  - cbn. destruct s; cbn in *. congruence.
Qed.

(** X23.  [main_loop] never lets an exception out.  When the connect
    sequence raises, it logs the error and stops there: no seat is
    announced, no poll is made, nothing is published, and the state is
    the one [connect] left. *)
Theorem main_loop_contains_a_failed_connect :
  forall (ticks : nat) (s : state),
    outcome (main_loop ticks s) = Ok tt
    /\ forall e : exn,
         outcome (connect s) = Raise e ->
         final (main_loop ticks s) = final (connect s)
         /\ osc_out (final (main_loop ticks s)) = osc_out s
         /\ In (Log ERROR "Error in main loop: {e}" [X e])
              (output (main_loop ticks s)).
Proof.
  intros ticks s. unfold main_loop, try_except.
  split.
  - destruct (bind connect _ s) as [[[[] | e] s1] ev1]; reflexivity.
  - intros e Hconnect.
    pose proof (connect_osc s) as Hosc.
    assert (Hrun :
      forall k : unit -> M unit,
        bind connect k s
        = (Raise e, final (connect s), output (connect s))).
    { intro k. unfold bind.
      destruct (connect s) as [[r s1] ev1]. cbn in Hconnect. subst r.
      reflexivity. }
    rewrite Hrun. cbn. split; [reflexivity |]. split; [exact Hosc |].
    apply in_or_app. right. left. reflexivity.
Qed.

Lemma main_loop_contains_a_failed_connect_witness :
  let s := init "10.0.0.5" (PyStr "admin") (PyStr "wrong") [] true
             [Parsed (error_response (PyDict [(PyStr "message", PyStr "Access denied")]));
              Parsed (discussion_response [entry "MALTA" "on"])] in
  outcome (main_loop 3 s) = Ok tt
  /\ osc_out (final (main_loop 3 s)) = []
  /\ sent (final (main_loop 3 s)) = [login_request (PyStr "admin") (PyStr "wrong")].
Proof.
  intro s.
  destruct (main_loop_contains_a_failed_connect 3 s) as [Hok Hfail].
  destruct (Hfail (RuntimeError (PyStr "Access denied")) eq_refl)
    as (Hfinal & Hosc & _).
  split; [exact Hok |]. split; [exact Hosc |].
  rewrite Hfinal. reflexivity.
Defined.

(** ** The unused publisher of microphone states *)



